(** * Pre-flight check for DNS-01 issuance with Cloudflare

    A shallow embedding of [scripts/check-cloudflare-dns.py] and the
    properties its specification states about it.

    Conventions.  Python [str] values are [string]s; a character is a code
    point below 256.  A [dict] built by [load_env_file] is a [gmap string
    string]; a value decoded by [json.load] is a [json] tree whose objects
    keep their items in insertion order.  A Python call that may raise is a
    function into [result]; [Raise e] propagates through [bind] exactly as
    an uncaught exception does, and a [try]/[except] is a [match] on the
    result. *)

From Stdlib Require Import String Ascii List ZArith Bool Lia.
From Stdlib Require Import Floats.SpecFloat.
From Stdlib Require Import DecimalString.
From stdpp Require Import base option gmap strings.
Import ListNotations.

Open Scope string_scope.
Open Scope list_scope.

(* ===================================================================== *)
(** ** Python string primitives *)
(* ===================================================================== *)

Module PyStr.

(** [str.isspace] on one character, for code points below 256: tab, line
    feed, vertical tab, form feed, carriage return, the four separators
    0x1c-0x1f, space, NEL (0x85) and no-break space (0xa0). *)
Definition is_space (c : ascii) : bool :=
  let n := nat_of_ascii c in
  (((9 <=? n) && (n <=? 13)) || ((28 <=? n) && (n <=? 32))
   || (n =? 133) || (n =? 160))%nat.

(** [s.lstrip()] *)
Fixpoint lstrip (s : string) : string :=
  match s with
  | EmptyString => EmptyString
  | String c s' => if is_space c then lstrip s' else s
  end.

Definition is_empty (s : string) : bool :=
  match s with EmptyString => true | String _ _ => false end.

(** [s.rstrip()] *)
Fixpoint rstrip (s : string) : string :=
  match s with
  | EmptyString => EmptyString
  | String c s' =>
      let r := rstrip s' in
      if is_space c && is_empty r then EmptyString else String c r
  end.

(** [s.strip()] *)
Definition strip (s : string) : string := rstrip (lstrip s).

(** [s.startswith(p)] *)
Fixpoint startswith (s p : string) {struct p} : bool :=
  match p with
  | EmptyString => true
  | String b p' =>
      match s with
      | EmptyString => false
      | String a s' => Ascii.eqb a b && startswith s' p'
      end
  end.

(** [p in s] for two strings: [p] occurs in [s] as a contiguous run. *)
Fixpoint contains (p s : string) : bool :=
  startswith s p
  || match s with
     | EmptyString => false
     | String _ s' => contains p s'
     end.

(** [c in s] for a one-character needle, as in ['=' in line]. *)
Fixpoint has_char (c : ascii) (s : string) : bool :=
  match s with
  | EmptyString => false
  | String a s' => Ascii.eqb a c || has_char c s'
  end.

(** [s.endswith(p)]: some suffix of [s] is [p]. *)
Fixpoint endswith (s p : string) : bool :=
  String.eqb s p
  || match s with
     | EmptyString => false
     | String _ s' => endswith s' p
     end.

(** [s[1:]] *)
Definition drop_first (s : string) : string :=
  match s with EmptyString => EmptyString | String _ s' => s' end.

(** [s[:-1]] *)
Fixpoint drop_last (s : string) : string :=
  match s with
  | EmptyString => EmptyString
  | String c s' =>
      match s' with
      | EmptyString => EmptyString
      | String _ _ => String c (drop_last s')
      end
  end.

(** [s[1:-1]] *)
Definition slice_1_m1 (s : string) : string := drop_last (drop_first s).

(** [s[:n]] *)
Fixpoint take (n : nat) (s : string) : string :=
  match n, s with
  | O, _ => EmptyString
  | _, EmptyString => EmptyString
  | S n', String c s' => String c (take n' s')
  end.

(** [s.split(sep, 1)] for a one-character separator: the text before the
    first separator and the text after it, or the whole string alone. *)
Fixpoint split_first (sep : ascii) (s : string) : string * option string :=
  match s with
  | EmptyString => (EmptyString, None)
  | String c s' =>
      if Ascii.eqb c sep then (EmptyString, Some s')
      else let '(a, b) := split_first sep s' in (String c a, b)
  end.

(** [s.split(sep)] for a one-character separator.  The result is never
    empty: the empty string splits into one empty label. *)
Fixpoint split (sep : ascii) (s : string) : list string :=
  match s with
  | EmptyString => [EmptyString]
  | String c s' =>
      if Ascii.eqb c sep then EmptyString :: split sep s'
      else match split sep s' with
           | [] => [String c EmptyString]
           | w :: ws => String c w :: ws
           end
  end.

(** [sep.join(parts)] *)
Fixpoint join (sep : string) (parts : list string) : string :=
  match parts with
  | [] => EmptyString
  | [w] => w
  | w :: ws => w +:+ sep +:+ join sep ws
  end.

(** [l[-2:]] *)
Definition last_two {A} (l : list A) : list A := skipn (List.length l - 2) l.

End PyStr.

Import PyStr.

(* ===================================================================== *)
(** ** Exceptions and decoded JSON values *)
(* ===================================================================== *)

(** What [e.read().decode()] does on an [HTTPError]: it yields the text of
    the response body, or it raises (a body that is not UTF-8, a broken
    connection) an exception whose [str] is the given text. *)
Inductive http_body : Type :=
  | BodyText (text : string)
  | BodyUnreadable (msg : string).

(** The exceptions the script can meet, each with the text [str(e)] gives. *)
Inductive exn : Type :=
  | AttributeError (msg : string)
  | TypeError (msg : string)
  | HTTPError (code : Z) (reason : string) (body : http_body)
  | URLError (reason : string)
  | OtherException (msg : string).

(** Decimal text of an integer, as [str] and f-strings print it. *)
Definition str_of_Z (z : Z) : string := NilZero.string_of_int (Z.to_int z).

Definition exn_str (e : exn) : string :=
  match e with
  | AttributeError m | TypeError m | OtherException m => m
  | HTTPError code reason _ =>
      "HTTP Error " +:+ str_of_Z code +:+ ": " +:+ reason
  | URLError reason => "<urlopen error " +:+ reason +:+ ">"
  end.

Inductive result (A : Type) : Type :=
  | Ok (a : A)
  | Raise (e : exn).
Arguments Ok {A} a.
Arguments Raise {A} e.

#[global] Instance result_ret : MRet result := fun _ a => Ok a.
#[global] Instance result_bind : MBind result := fun _ _ k m =>
  match m with
  | Ok a => k a
  | Raise e => Raise e
  end.

(** What [json.load] produces: [None], [bool], [int], [float], [str],
    [list] and [dict] (items in insertion order, keys pairwise distinct). *)
#[warnings="-register-all"]
Inductive json : Type :=
  | JNull
  | JBool (b : bool)
  | JInt (z : Z)
  | JFloat (f : spec_float)
  | JStr (s : string)
  | JArr (elems : list json)
  | JObj (items : list (string * json)).

(** [type(v).__name__] *)
Definition type_name (v : json) : string :=
  match v with
  | JNull => "NoneType"
  | JBool _ => "bool"
  | JInt _ => "int"
  | JFloat _ => "float"
  | JStr _ => "str"
  | JArr _ => "list"
  | JObj _ => "dict"
  end.

(** [bool(v)], the test behind [if v] and [not v]. *)
Definition truthy (v : json) : bool :=
  match v with
  | JNull => false
  | JBool b => b
  | JInt z => negb (z =? 0)%Z
  | JFloat (S754_zero _) => false
  | JFloat _ => true
  | JStr s => negb (is_empty s)
  | JArr l => match l with [] => false | _ :: _ => true end
  | JObj l => match l with [] => false | _ :: _ => true end
  end.

(** [v == s] for a string [s]: only an equal string compares equal. *)
Definition py_eq_str (v : json) (s : string) : bool :=
  match v with
  | JStr t => String.eqb t s
  | _ => false
  end.

Fixpoint dict_lookup (items : list (string * json)) (key : string)
  : option json :=
  match items with
  | [] => None
  | (k, v) :: rest => if String.eqb k key then Some v else dict_lookup rest key
  end.

(** [key in v]: key membership for a dict, element membership for a list,
    substring test for a string, [TypeError] for anything else. *)
Definition py_in (key : string) (v : json) : result bool :=
  match v with
  | JObj items => Ok (bool_decide (is_Some (dict_lookup items key)))
  | JArr l => Ok (existsb (fun x => py_eq_str x key) l)
  | JStr s => Ok (contains key s)
  | _ => Raise (TypeError ("argument of type '" +:+ type_name v
                           +:+ "' is not iterable"))
  end.

(** [v.get(key, default)]: only a dict has the method. *)
Definition py_get (v : json) (key : string) (dflt : json) : result json :=
  match v with
  | JObj items => Ok (from_option id dflt (dict_lookup items key))
  | _ => Raise (AttributeError ("'" +:+ type_name v
                                +:+ "' object has no attribute 'get'"))
  end.

Fixpoint chars (s : string) : list json :=
  match s with
  | EmptyString => []
  | String c s' => JStr (String c EmptyString) :: chars s'
  end.

(** The sequence a [for x in v] loop runs over. *)
Definition py_iter (v : json) : result (list json) :=
  match v with
  | JArr l => Ok l
  | JObj items => Ok (map (fun kv => JStr (fst kv)) items)
  | JStr s => Ok (chars s)
  | _ => Raise (TypeError ("'" +:+ type_name v +:+ "' object is not iterable"))
  end.

(* ===================================================================== *)
(** ** [check_certificates_exist_and_valid] *)
(* ===================================================================== *)

(** What the function finds at [acme_storage_path]: no file, a file that
    [open] or [json.load] fails on, or a file holding a JSON document. *)
Inductive store_file : Type :=
  | StoreMissing
  | StoreUnreadable (e : exn)
  | StoreParsed (acme_data : json).

Definition msg_found (domain : string) : string :=
  "Certificate found for " +:+ domain.
Definition msg_not_found (domain : string) : string :=
  "No certificate found for " +:+ domain.
Definition msg_expired (domain : string) : string :=
  "Certificate for " +:+ domain +:+ " may be expired".

(** The test of line 170: exact match or wildcard. *)
Definition cert_matches (cert_domain : json) (domain : string) : bool :=
  py_eq_str cert_domain domain || py_eq_str cert_domain ("*." +:+ domain).

(** The inner [for cert in certificates] loop (lines 166-179).  It yields
    the flags [found] and [valid], both [False] before the loop, and the
    message list; the [break] ends the recursion. *)
Fixpoint scan_certificates (certificates : list json) (domain : string)
    (messages : list string) : result (bool * bool * list string) :=
  match certificates with
  | [] => Ok (false, false, messages)
  | cert :: rest =>
      d ← py_get cert "domain" (JObj []);
      cert_domain ← py_get d "main" (JStr "");
      if cert_matches cert_domain domain
      then Ok (true, true, messages ++ [msg_found domain])
      else scan_certificates rest domain messages
  end.

(** One round of the outer [for domain in domains] loop (lines 162-186). *)
Definition check_domain (certificates : json) (domain : string)
    (st : bool * list string) : result (bool * list string) :=
  let '(all_valid, messages) := st in
  certs ← py_iter certificates;
  '(found, valid, messages) ← scan_certificates certs domain messages;
  if negb found then Ok (false, messages ++ [msg_not_found domain])
  else if negb valid then Ok (false, messages ++ [msg_expired domain])
  else Ok (all_valid, messages).

Fixpoint check_domains (certificates : json) (domains : list string)
    (st : bool * list string) : result (bool * list string) :=
  match domains with
  | [] => Ok st
  | domain :: rest =>
      st' ← check_domain certificates domain st;
      check_domains certificates rest st'
  end.

Definition check_certificates_exist_and_valid (store : store_file)
    (acme_storage_path : string) (domains : list string)
  : result (bool * string) :=
  match store with
  | StoreMissing =>
      Ok (false, "ACME storage file not found at " +:+ acme_storage_path)
  | StoreUnreadable e =>
      Ok (false, "Failed to read ACME storage: " +:+ exn_str e)
  | StoreParsed acme_data =>
      has_dns ← (if negb (truthy acme_data) then Ok false
                 else py_in "dns" acme_data);
      if negb has_dns
      then Ok (false, "No DNS resolver certificates found in ACME storage")
      else
        dns_data ← py_get acme_data "dns" (JObj []);
        certificates ← py_get dns_data "Certificates" (JArr []);
        if negb (truthy certificates)
        then Ok (false, "No certificates found in DNS resolver storage")
        else
          '(all_valid, messages) ← check_domains certificates domains (true, []);
          Ok (all_valid, join "; " messages)
  end.

(* ===================================================================== *)
(** ** [load_env_file], [get_env_value], [validate_cloudflare_credentials] *)
(* ===================================================================== *)

(** The double-quote character. *)
Definition dq : string := String "034"%char EmptyString.

(** What the function finds at [env_file_path]: no file, a file [open]
    fails on, or a file that yields some lines and then either ends or
    fails (a read or decoding error part of the way through). *)
Inductive env_file : Type :=
  | EnvMissing
  | EnvOpenFails (e : exn)
  | EnvOpened (lines : list string) (failure : option exn).

(** Lines 92-95: remove quotes if present. *)
Definition unquote (value : string) : string :=
  if startswith value dq && endswith value dq then slice_1_m1 value
  else if startswith value "'" && endswith value "'" then slice_1_m1 value
  else value.

(** The body of the [for line in f] loop (lines 78-97).  The unpacking
    [key, value = line.split('=', 1)] raises [ValueError] when the split
    yields one part. *)
Definition parse_line (line : string) (env_vars : gmap string string)
  : result (gmap string string) :=
  let line := strip line in
  if is_empty line || startswith line "#" then Ok env_vars
  else if has_char "=" line then
    match split_first "=" line with
    | (key, Some value) =>
        let key := strip key in
        let value := strip value in
        Ok (<[key := unquote value]> env_vars)
    | (_, None) =>
        Raise (OtherException "not enough values to unpack (expected 2, got 1)")
    end
  else Ok env_vars.

Fixpoint read_lines (lines : list string) (failure : option exn)
    (env_vars : gmap string string) : result (gmap string string) :=
  match lines with
  | [] => match failure with
          | None => Ok env_vars
          | Some e => Raise e
          end
  | line :: rest =>
      env_vars' ← parse_line line env_vars;
      read_lines rest failure env_vars'
  end.

(** Log lines, as printed by [log_info], [log_pass], [log_warn] and
    [log_error]. *)
Inductive level : Type := INFO | PASS | WARN | ERROR.

(** What a run does that can be observed from outside: a printed log line,
    entry into one of the three checks [main] may call, and a request sent
    with [urlopen]. *)
Inductive callee : Type := CertCheck | CredCheck | ApiProbe.

Inductive event : Type :=
  | Log (lv : level) (msg : string)
  | Called (f : callee)
  | UrlOpen (url : string).

(** [load_env_file]: a missing file returns the empty dict before the
    [try]; inside it, an exception from [open] or from the loop reaches
    the [except] branch, which returns [{}]. *)
Definition load_env_file (f : env_file) : gmap string string :=
  match f with
  | EnvMissing => ∅
  | EnvOpenFails _ => ∅
  | EnvOpened lines failure =>
      match read_lines lines failure ∅ with
      | Ok env_vars => env_vars
      | Raise _ => ∅
      end
  end.

Definition parse_failure (e : exn) : event :=
  Log ERROR ("Failed to parse .env file: " +:+ exn_str e).

(** The line [load_env_file] prints in its [except] branch. *)
Definition load_env_file_output (f : env_file) : list event :=
  match f with
  | EnvMissing => []
  | EnvOpenFails e => [parse_failure e]
  | EnvOpened lines failure =>
      match read_lines lines failure ∅ with
      | Ok _ => []
      | Raise e => [parse_failure e]
      end
  end.

(** [os.environ.get(key, env_vars.get(key, ''))] *)
Definition get_env_value (environ : gmap string string) (key : string)
    (env_vars : gmap string string) : string :=
  from_option id (from_option id "" (env_vars !! key)) (environ !! key).

Definition credentials_error_raw : string :=
"
Cloudflare API token is required but not found.

Please set one of the following environment variables in your .env file:
  - CF_DNS_API_TOKEN (preferred for DNS-01 challenges)
  - CF_API_TOKEN (legacy option)

To create a Cloudflare API token:
  1. Log in to your Cloudflare dashboard
  2. Go to My Profile > API Tokens
  3. Click " +:+ dq +:+ "Create Token" +:+ dq +:+ "
  4. Use the " +:+ dq +:+ "Edit zone DNS" +:+ dq +:+ " template
  5. Set permissions: Zone > DNS > Edit
  6. Select the zone(s) for your domain
  7. Copy the token and add to .env:
     CF_DNS_API_TOKEN=your-token-here

For more info: https://go-acme.github.io/lego/dns/cloudflare/
".

(** Returns [(valid, token_value, error_message)]; [None] is Python's
    [None]. *)
Definition validate_cloudflare_credentials (environ : gmap string string)
    (env_vars : gmap string string) : bool * option string * option string :=
  let cf_token := get_env_value environ "CF_DNS_API_TOKEN" env_vars in
  let cf_token := if is_empty cf_token
                  then get_env_value environ "CF_API_TOKEN" env_vars
                  else cf_token in
  if is_empty cf_token
  then (false, None, Some (strip credentials_error_raw))
  else (true, Some cf_token, None).

(* ===================================================================== *)
(** ** [test_cloudflare_api_connectivity] *)
(* ===================================================================== *)

(** The line-feed character. *)
Definition nl : string := String "010"%char EmptyString.

(** Lines 260-266: the base-domain candidate. *)
Definition base_domain_of (domain : string) : string :=
  let domain_parts := split "." domain in
  if (2 <? List.length domain_parts)%nat
  then join "." (last_two domain_parts)
  else domain.

Definition list_zones_url : string :=
  "https://api.cloudflare.com/client/v4/zones?per_page=50".

Record zone_info : Type := ZoneInfo {
  zi_id : json;
  zi_name : json;
  zi_status : json
}.

(** [(success, error_message, zone_info)] *)
Definition probe_result : Type := bool * option string * option zone_info.

Definition probe_failure (msg : string) : probe_result :=
  (false, Some msg, None).

Section Probe.

(** [str(v)] for a decoded value that is neither a string, [None], a
    [bool] nor an [int]: Python's own rendering of floats, lists and dicts,
    which the script relies on but does not define. *)
Variable repr_other : json -> string.

(** How an f-string renders [{v}]. *)
Definition fmt (v : json) : string :=
  match v with
  | JStr s => s
  | JNull => "None"
  | JBool true => "True"
  | JBool false => "False"
  | JInt z => str_of_Z z
  | _ => repr_other v
  end.

(** The request a run sends: [urlopen] on a URL with the bearer token,
    then [read], [decode] and [json.loads]; any of them may raise. *)
Variable network : string -> string -> result json.

(** The comprehension of lines 283 and 333. *)
Fixpoint error_msgs (errors : list json) : result (list string) :=
  match errors with
  | [] => Ok []
  | e :: rest =>
      code ← py_get e "code" (JStr "unknown");
      message ← py_get e "message" (JStr "unknown error");
      msgs ← error_msgs rest;
      Ok ((fmt code +:+ ": " +:+ fmt message) :: msgs)
  end.

Definition zone_matches (zone_name : json) (domain base_domain : string)
  : bool :=
  py_eq_str zone_name domain || py_eq_str zone_name base_domain.

(** The [for zone in zones] loop (lines 295-302): the zone it stopped at,
    if any, and the names collected on the way. *)
Fixpoint find_zone (zones : list json) (domain base_domain : string)
    (accessible_zones : list json) : result (option json * list json) :=
  match zones with
  | [] => Ok (None, accessible_zones)
  | zone :: rest =>
      zone_name ← py_get zone "name" (JStr "");
      let accessible_zones := accessible_zones ++ [zone_name] in
      if zone_matches zone_name domain base_domain
      then Ok (Some zone, accessible_zones)
      else find_zone rest domain base_domain accessible_zones
  end.

Definition zone_line (zone_name : json) : string :=
  "  - " +:+ fmt zone_name +:+ nl.

(** Lines 305-316. *)
Definition zone_not_found_msg (domain base_domain : string)
    (accessible_zones : list json) : string :=
  "Domain '" +:+ domain +:+ "' (base: '" +:+ base_domain
    +:+ "') not found in accessible zones." +:+ nl
  +:+ nl +:+ "Zones accessible with this token:" +:+ nl
  +:+ String.concat "" (map zone_line accessible_zones)
  +:+ nl +:+ "Possible causes:" +:+ nl
  +:+ "  1. Domain is not added to your Cloudflare account" +:+ nl
  +:+ "  2. API token doesn't have permission for this zone" +:+ nl
  +:+ "  3. DOMAIN in .env doesn't match the Cloudflare zone name" +:+ nl
  +:+ nl +:+ "To fix:" +:+ nl
  +:+ "  1. Verify the domain is added to Cloudflare" +:+ nl
  +:+ "  2. Recreate the API token and include this zone" +:+ nl
  +:+ "  3. Update DOMAIN in .env to match a zone listed above".

(** Lines 281-317: what the first response leads to, either a final
    failure or the zone the second request is sent for. *)
Definition select_zone (data : json) (domain base_domain : string)
  : result (probe_result + json) :=
  success ← py_get data "success" JNull;
  if negb (truthy success) then
    errors ← py_get data "errors" (JArr []);
    errs ← py_iter errors;
    msgs ← error_msgs errs;
    Ok (inl (probe_failure ("API call failed: " +:+ join ", " msgs)))
  else
    zones ← py_get data "result" (JArr []);
    if negb (truthy zones)
    then Ok (inl (probe_failure "API token has no access to any zones"))
    else
      zs ← py_iter zones;
      '(domain_zone, accessible_zones) ← find_zone zs domain base_domain [];
      match domain_zone with
      | Some zone =>
          if truthy zone then Ok (inr zone)
          else Ok (inl (probe_failure
                 (zone_not_found_msg domain base_domain accessible_zones)))
      | None =>
          Ok (inl (probe_failure
                 (zone_not_found_msg domain base_domain accessible_zones)))
      end.

Definition dns_records_url (zone_id : json) : string :=
  "https://api.cloudflare.com/client/v4/zones/" +:+ fmt zone_id
  +:+ "/dns_records?per_page=1".

(** Lines 320-349: the read-permission request for the chosen zone, with
    the inner [except urllib.error.HTTPError].  An exception raised inside
    that handler, by [e.read().decode()], leaves the inner [try] and meets
    the handlers of lines 351-360. *)
Definition check_dns_records (api_token : string) (domain_zone : json)
  : list event * result probe_result :=
  match py_get domain_zone "id" JNull with
  | Raise e => ([], Raise e)
  | Ok zone_id =>
  match py_get domain_zone "name" JNull with
  | Raise e => ([], Raise e)
  | Ok zone_name =>
      let dns_url := dns_records_url zone_id in
      ([UrlOpen dns_url],
       match network dns_url api_token with
       | Ok dns_data =>
           success ← py_get dns_data "success" JNull;
           if negb (truthy success) then
             errors ← py_get dns_data "errors" (JArr []);
             errs ← py_iter errors;
             msgs ← error_msgs errs;
             Ok (probe_failure
                   ("API token cannot access DNS records for zone '"
                    +:+ fmt zone_name +:+ "': " +:+ join ", " msgs))
           else
             status ← py_get domain_zone "status" (JStr "unknown");
             Ok (true, None, Some (ZoneInfo zone_id zone_name status))
       | Raise (HTTPError code reason body) =>
           if (code =? 403)%Z
           then Ok (probe_failure
                  ("API token does not have DNS read permission for zone '"
                   +:+ fmt zone_name
                   +:+ "'. Ensure token has 'Zone > DNS > Edit' permission."))
           else
             match body with
             | BodyText error_body =>
                 Ok (probe_failure
                       ("HTTP " +:+ str_of_Z code
                        +:+ " when checking DNS permissions: " +:+ reason
                        +:+ ". " +:+ take 200 error_body))
             | BodyUnreadable msg => Raise (OtherException msg)
             end
       | Raise e => Raise e
       end)
  end end.

(** The body of the inner [try] (lines 277-349). *)
Definition probe_try (api_token domain : string)
  : list event * result probe_result :=
  let base_domain := base_domain_of domain in
  match network list_zones_url api_token with
  | Raise e => ([UrlOpen list_zones_url], Raise e)
  | Ok data =>
      match select_zone data domain base_domain with
      | Raise e => ([UrlOpen list_zones_url], Raise e)
      | Ok (inl failure) => ([UrlOpen list_zones_url], Ok failure)
      | Ok (inr domain_zone) =>
          let '(evs, r) := check_dns_records api_token domain_zone in
          (UrlOpen list_zones_url :: evs, r)
      end
  end.

(** The handlers of lines 351-360 and, for an exception raised inside the
    first of them by [e.read().decode()], the outermost handler of lines
    364-365. *)
Definition handle_request_errors (r : result probe_result) : probe_result :=
  match r with
  | Ok res => res
  | Raise (HTTPError code reason body) =>
      if (code =? 403)%Z
      then probe_failure
             "API token is valid but has insufficient permissions. Ensure it has 'Zone > DNS > Edit' permission."
      else
        match body with
        | BodyText error_body =>
            probe_failure ("HTTP " +:+ str_of_Z code +:+ ": " +:+ reason
                           +:+ ". " +:+ take 200 error_body)
        | BodyUnreadable msg => probe_failure ("Unexpected error: " +:+ msg)
        end
  | Raise (URLError reason) => probe_failure ("Network error: " +:+ reason)
  | Raise e => probe_failure ("Request failed: " +:+ exn_str e)
  end.

Definition test_cloudflare_api_connectivity (api_token domain : string)
  : list event * probe_result :=
  let '(evs, r) := probe_try api_token domain in
  (evs, handle_request_errors r).

End Probe.

(* ===================================================================== *)
(** ** [main] *)
(* ===================================================================== *)

(** The [sys.exit] calls of [main], in source order (lines 399, 405, 413,
    429, 441, 467 and 472). *)
Inductive exit_site : Type :=
  | SkipNotDns
  | SkipNotCloudflare
  | FailConfig
  | PassCertsValid
  | FailNoCredential
  | FailApi
  | PassApi.

Definition site_code (s : exit_site) : Z :=
  match s with
  | SkipNotDns | SkipNotCloudflare | PassCertsValid | PassApi => 0
  | FailConfig | FailNoCredential | FailApi => 1
  end.

(** How a run ends: at a [sys.exit], or with an exception nobody caught
    (the interpreter then prints a traceback and exits with status 1). *)
Inductive outcome : Type :=
  | Exit (site : exit_site)
  | Uncaught (e : exn).

Definition exit_code (o : outcome) : Z :=
  match o with
  | Exit s => site_code s
  | Uncaught _ => 1
  end.

Definition is_skip (o : outcome) : bool :=
  match o with
  | Exit SkipNotDns | Exit SkipNotCloudflare => true
  | _ => false
  end.

(** Everything a run reads: the process environment, the file named by
    [--env-file], the path given as [--acme-storage] with the file found
    there, Python's rendering of non-string values, and the network. *)
Record world : Type := World {
  environ : gmap string string;
  env_file_found : env_file;
  acme_storage : string;
  store_found : store_file;
  py_repr : json -> string;
  net : string -> string -> result json
}.

Definition api_failure_lines : list event :=
  [ Log ERROR "";
    Log ERROR "Common issues:";
    Log ERROR "  1. Invalid or expired API token";
    Log ERROR "  2. Token doesn't have 'Zone > DNS > Edit' permissions";
    Log ERROR "  3. Token doesn't have access to the domain's zone";
    Log ERROR "  4. Domain not added to your Cloudflare account";
    Log ERROR "  5. Network connectivity issues";
    Log ERROR "";
    Log ERROR "To fix:";
    Log ERROR "  1. Verify your token at: https://dash.cloudflare.com/profile/api-tokens";
    Log ERROR "  2. Ensure the token has 'Zone > DNS > Edit' permissions";
    Log ERROR "  3. Ensure the token includes your domain's zone";
    Log ERROR "  4. Check that DOMAIN in .env matches your Cloudflare zone";
    Log ERROR "  5. Verify network connectivity to api.cloudflare.com";
    Log ERROR "  6. Create a new token if needed and update CF_DNS_API_TOKEN in .env" ].

(** How [log_error] prints an optional message: [None] prints as "None". *)
Definition fmt_opt (m : option string) : string := from_option id "None" m.

(** Lines 436-472, entered when the certificates were not all found. *)
Definition main_credentials (w : world) (env_vars : gmap string string)
    (domain : string) : list event * outcome :=
  match validate_cloudflare_credentials (environ w) env_vars with
  | (false, _, cred_error) =>
      ([Called CredCheck;
        Log ERROR "Cloudflare credentials validation failed";
        Log ERROR (fmt_opt cred_error)],
       Exit FailNoCredential)
  | (true, api_token, _) =>
      let '(requests, (api_success, api_error, zone)) :=
        test_cloudflare_api_connectivity (py_repr w) (net w)
          (fmt_opt api_token) domain in
      let t := [Called CredCheck;
                Log PASS "Cloudflare API token found";
                Log INFO "Testing Cloudflare API connectivity and domain access...";
                Called ApiProbe] ++ requests in
      if negb api_success then
        (t ++ [Log ERROR "Cloudflare API connectivity or domain access check failed";
               Log ERROR (fmt_opt api_error)] ++ api_failure_lines,
         Exit FailApi)
      else
        match zone with
        | Some zi =>
            (t ++ [Log PASS "Cloudflare API connectivity test successful";
                   Log PASS ("Token has access to zone: "
                             +:+ fmt (py_repr w) (zi_name zi)
                             +:+ " (status: "
                             +:+ fmt (py_repr w) (zi_status zi) +:+ ")");
                   Log INFO "Ready to issue certificates via DNS-01 challenge"],
             Exit PassApi)
        | None =>
            (t ++ [Log PASS "Cloudflare API connectivity test successful"],
             Uncaught (TypeError "'NoneType' object is not subscriptable"))
        end
  end.

(** Lines 416-433: the domain list and the certificate check. *)
Definition requested_domains (domain subdomain : string) : list string :=
  if is_empty subdomain then [domain]
  else [domain; subdomain +:+ "." +:+ domain].

Definition main_certificates (w : world) (env_vars : gmap string string)
    (domain subdomain : string) : list event * outcome :=
  let domains := requested_domains domain subdomain in
  let t := [Log INFO ("Checking certificates for domains: "
                      +:+ join ", " domains);
            Called CertCheck] in
  match check_certificates_exist_and_valid
          (store_found w) (acme_storage w) domains with
  | Raise e => (t, Uncaught e)
  | Ok (certs_valid, cert_status) =>
      if certs_valid then
        (t ++ [Log PASS "Valid certificates already exist for all domains";
               Log INFO "Skipping Cloudflare credential validation (certificates present)";
               Log INFO cert_status],
         Exit PassCertsValid)
      else
        let '(t', o) := main_credentials w env_vars domain in
        (t ++ [Log WARN "Certificates not found or may be expired";
               Log INFO cert_status;
               Log INFO "Proceeding with Cloudflare credential validation..."]
           ++ t', o)
  end.

(** [main], after [parse_args]. *)
Definition main (w : world) : list event * outcome :=
  let env_vars := load_env_file (env_file_found w) in
  let t0 := load_env_file_output (env_file_found w) in
  let le_challenge := get_env_value (environ w) "LE_CHALLENGE" env_vars in
  let le_dns_provider := get_env_value (environ w) "LE_DNS_PROVIDER" env_vars in
  let domain := get_env_value (environ w) "DOMAIN" env_vars in
  let subdomain := get_env_value (environ w) "SUBDOMAIN" env_vars in
  if negb (String.eqb le_challenge "dns") then
    (t0 ++ [Log INFO "LE_CHALLENGE is not 'dns' - skipping Cloudflare DNS check"],
     Exit SkipNotDns)
  else if negb (String.eqb le_dns_provider "cloudflare") then
    (t0 ++ [Log INFO ("LE_DNS_PROVIDER is '" +:+ le_dns_provider
                      +:+ "' (not 'cloudflare') - skipping Cloudflare check")],
     Exit SkipNotCloudflare)
  else
    let t1 := t0 ++ [Log INFO "DNS-01 challenge with Cloudflare provider detected"] in
    if is_empty domain || String.eqb domain "paste-domain-here" then
      (t1 ++ [Log ERROR "DOMAIN is not configured properly in .env";
              Log INFO "Please set DOMAIN to your actual domain name"],
       Exit FailConfig)
    else
      let '(t, o) := main_certificates w env_vars domain subdomain in
      (t1 ++ t, o).

(** A trace holds no sign of the three checks: no entry into any of them
    and no request. *)
Definition quiet (e : event) : bool :=
  match e with
  | Log _ _ => true
  | Called _ | UrlOpen _ => false
  end.

Definition no_probe (e : event) : bool :=
  match e with
  | Called ApiProbe | Called CredCheck | UrlOpen _ => false
  | _ => true
  end.

(* ===================================================================== *)
(** ** Vocabulary of the specification *)
(* ===================================================================== *)

(** The value [main] reads for a configuration key. *)
Definition config_value (w : world) (key : string) : string :=
  get_env_value (environ w) key (load_env_file (env_file_found w)).

(** A certificate record as the store format describes it: an object whose
    [domain] entry, when present, is an object. *)
Definition record_ok (cert : json) : bool :=
  match cert with
  | JObj items =>
      match dict_lookup items "domain" with
      | None | Some (JObj _) => true
      | Some _ => false
      end
  | _ => false
  end.

(** The main label a record exposes; the empty string when it has none. *)
Definition main_label (cert : json) : json :=
  match cert with
  | JObj items =>
      match dict_lookup items "domain" with
      | Some (JObj d) => from_option id (JStr "") (dict_lookup d "main")
      | _ => JStr ""
      end
  | _ => JStr ""
  end.

(** The records of a well-formed store: an object whose [dns] resolver is
    an object holding a non-empty [Certificates] list of records. *)
Definition store_records (acme_data : json) : option (list json) :=
  match acme_data with
  | JObj items =>
      match dict_lookup items "dns" with
      | Some (JObj dns_items) =>
          match dict_lookup dns_items "Certificates" with
          | Some (JArr (c :: cs)) =>
              if forallb record_ok (c :: cs) then Some (c :: cs) else None
          | _ => None
          end
      | _ => None
      end
  | _ => None
  end.

(** A record covers a domain: its main label is the domain or its
    wildcard. *)
Definition covers (domain : string) (cert : json) : Prop :=
  main_label cert = JStr domain \/ main_label cert = JStr ("*." +:+ domain).

Definition satisfied (certs : list json) (domain : string) : bool :=
  existsb (fun cert => cert_matches (main_label cert) domain) certs.

Definition domain_message (certs : list json) (domain : string) : string :=
  if satisfied certs domain then msg_found domain else msg_not_found domain.

(** The shapes of a decoded store the function is written for: a falsy
    document, a container without ["dns"], or an object whose [dns] entry
    is an object with [Certificates] absent, falsy, or a list of
    records. *)
Definition expected_shape (acme_data : json) : bool :=
  negb (truthy acme_data)
  || match acme_data with
     | JObj items =>
         match dict_lookup items "dns" with
         | None => true
         | Some (JObj dns_items) =>
             match dict_lookup dns_items "Certificates" with
             | None => true
             | Some (JArr certs) => forallb record_ok certs
             | Some v => negb (truthy v)
             end
         | Some _ => false
         end
     | JArr l => negb (existsb (fun x => py_eq_str x "dns") l)
     | JStr s => negb (contains "dns" s)
     | _ => false
     end.

Definition dot_free (label : string) : bool := negb (has_char "." label).

(** A zone of a list-zones response: an object with a [name]. *)
Definition is_zone (zone : json) : bool :=
  match zone with
  | JObj items => bool_decide (is_Some (dict_lookup items "name"))
  | _ => false
  end.

Definition zone_name (zone : json) : json :=
  match zone with
  | JObj items => from_option id (JStr "") (dict_lookup items "name")
  | _ => JStr ""
  end.

(** A successful list-zones response carrying the given zones. *)
Definition zones_response (data : json) (zones : list json) : Prop :=
  exists items success,
    data = JObj items
    /\ dict_lookup items "success" = Some success
    /\ truthy success = true
    /\ dict_lookup items "result" = Some (JArr zones).

Definition no_zones_error : string := "API token has no access to any zones".

Definition zone_id (zone : json) : json :=
  match zone with
  | JObj items => from_option id JNull (dict_lookup items "id")
  | _ => JNull
  end.

(** The handlers of [test_cloudflare_api_connectivity] leave a result
    untouched; this names the zone test of the probe for one zone. *)
Definition zone_selected (domain : string) (zone : json) : bool :=
  zone_matches (zone_name zone) domain (base_domain_of domain).

(** The two messages a requested domain can end with. *)
Definition outcome_of (domain message : string) : Prop :=
  message = msg_found domain \/ message = msg_not_found domain.

Definition expired_text : string := "may be expired".

Definition no_dns_status : string :=
  "No DNS resolver certificates found in ACME storage".

Definition no_certificates_status : string :=
  "No certificates found in DNS resolver storage".

(** The code points below 256 that [str.strip] removes: tab, line feed,
    vertical tab, form feed, carriage return, the file, group, record and
    unit separators, space, next line and no-break space. *)
Definition whitespace : list nat :=
  [9; 10; 11; 12; 13; 28; 29; 30; 31; 32; 133; 160]%nat.

Definition is_ws (c : ascii) : bool :=
  existsb (Nat.eqb (nat_of_ascii c)) whitespace.

Fixpoint all_ws (s : string) : bool :=
  match s with
  | EmptyString => true
  | String c s' => is_ws c && all_ws s'
  end.

Definition first_char (s : string) : option ascii :=
  match s with
  | EmptyString => None
  | String c _ => Some c
  end.

Fixpoint last_char (s : string) : option ascii :=
  match s with
  | EmptyString => None
  | String c s' =>
      match s' with
      | EmptyString => Some c
      | String _ _ => last_char s'
      end
  end.

(** A text with no whitespace at either end. *)
Definition tight (t : string) : bool :=
  match first_char t, last_char t with
  | Some a, Some b => negb (is_ws a) && negb (is_ws b)
  | _, _ => true
  end.

(** [t] is [s] with the whitespace at its two ends removed. *)
Definition trims_to (s t : string) : Prop :=
  exists l r,
    s = l +:+ t +:+ r
    /\ all_ws l = true /\ all_ws r = true /\ tight t = true.

(** The character [c] occurs in [s]. *)
Definition occurs (c : ascii) (s : string) : Prop :=
  exists a b, s = a +:+ String c b.

(** The tab character. *)
Definition tab : string := String "009"%char EmptyString.

(** The zone's registered name is the requested domain or its
    base-domain candidate. *)
Definition names_zone (domain : string) (zone : json) : Prop :=
  zone_name zone = JStr domain
  \/ zone_name zone = JStr (base_domain_of domain).

(** The value a variable has in a configuration, made of the process
    environment and the mapping read from the file: the environment's
    entry when there is one, else the file's, else the empty string. *)
Definition effective_value (environ env_vars : gmap string string)
    (name : string) : string :=
  match environ !! name with
  | Some in_environment => in_environment
  | None =>
      match env_vars !! name with
      | Some in_file => in_file
      | None => ""
      end
  end.

(** The decoded store names a [dns] resolver. *)
Definition has_dns_resolver (acme_data : json) : bool :=
  match acme_data with
  | JObj items => bool_decide (is_Some (dict_lookup items "dns"))
  | _ => false
  end.

Definition store_expected (store : store_file) : bool :=
  match store with
  | StoreParsed acme_data => expected_shape acme_data
  | StoreMissing | StoreUnreadable _ => true
  end.

(** The two exceptions a store of an unexpected shape can cause. *)
Definition attribute_or_type_error (e : exn) : bool :=
  match e with
  | AttributeError _ | TypeError _ => true
  | _ => false
  end.

(** A domain no record of the list is for: it is longer than every main
    label. *)
Fixpoint longest_label (certs : list json) : nat :=
  match certs with
  | [] => 0%nat
  | cert :: rest =>
      Nat.max (match main_label cert with
               | JStr label => String.length label
               | _ => 0%nat
               end)
              (longest_label rest)
  end.

Fixpoint letters (n : nat) : string :=
  match n with
  | O => EmptyString
  | S n' => String "x" (letters n')
  end.

Definition unmatched_domain (certs : list json) : string :=
  letters (S (longest_label certs)).

(* ===================================================================== *)
(** ** Sample inputs *)
(* ===================================================================== *)

Definition cert_record (label : string) : json :=
  JObj [("domain", JObj [("main", JStr label)]); ("Store", JStr "default")].

Definition store_with (records : list json) : json :=
  JObj [("dns", JObj [("Account", JNull); ("Certificates", JArr records)])].

(** A record whose [domain] entry is a string, not an object. *)
Definition flat_record : json := JObj [("domain", JStr "example.com")].

Definition zone_record (zid name : string) : json :=
  JObj [("id", JStr zid); ("name", JStr name); ("status", JStr "active")].

Definition zones_reply (zones : list json) : json :=
  JObj [("success", JBool true); ("result", JArr zones)].

Definition unreachable : string -> string -> result json :=
  fun _ _ => Raise (URLError "unreachable").

(** A network that answers the list-zones request with the given zones and
    every other request with an empty success envelope. *)
Definition serving (zones : list json) : string -> string -> result json :=
  fun url _ =>
    if String.eqb url list_zones_url then Ok (zones_reply zones)
    else Ok (JObj [("success", JBool true); ("result", JArr [])]).

Definition plain_repr : json -> string := fun _ => "?".

Definition world_of (lines : list string) (store : store_file) : world :=
  World ∅ (EnvOpened lines None) "/data/acme-dns.json" store plain_repr
        unreachable.

Definition world_http : world :=
  world_of ["LE_CHALLENGE=http"; "DOMAIN=example.com"] StoreMissing.

Definition world_certs_present : world :=
  world_of ["LE_CHALLENGE=dns"; "LE_DNS_PROVIDER=cloudflare";
            "DOMAIN=example.com"]
           (StoreParsed (store_with [cert_record "example.com"])).

(* ===================================================================== *)
(** ** [check_db_connection.py] *)
(* ===================================================================== *)

Module DbCheck.

(** What [psycopg2.connect] followed by [conn.close()] does: it succeeds,
    raises [psycopg2.Error], raises [OSError], or raises something else. *)
Inductive connect_result : Type :=
  | Connected
  | RaisesDbError
  | RaisesOSError
  | RaisesOther (e : exn).

(** A line printed on standard error, and a connection attempt with the
    five parameters passed to [psycopg2.connect]. *)
Inductive db_event : Type :=
  | Stderr (line : string)
  | Connect (host port dbname user password : string).

(** How [main] ends: by [sys.exit(code)], or by an exception that nothing
    catches. *)
Inductive db_outcome : Type :=
  | DbExit (code : Z)
  | DbUncaught (e : exn).


(** The database side of a run: whether [import psycopg2] succeeds, and
    what a connection attempt does. *)
Record driver : Type := Driver {
  importable : bool;
  connect : string -> string -> string -> string -> string -> connect_result
}.

(** [check_connection]: the import is outside the [try]; the [except]
    catches [psycopg2.Error] and [OSError] only. *)
Definition check_connection (d : driver)
    (host port dbname user password : string)
  : list db_event * result bool :=
  if importable d then
    ([Connect host port dbname user password],
     match connect d host port dbname user password with
     | Connected => Ok true
     | RaisesDbError | RaisesOSError => Ok false
     | RaisesOther e => Raise e
     end)
  else ([], Raise (OtherException "No module named 'psycopg2'")).

Definition usage : list db_event :=
  [ Stderr "Error: Missing required arguments";
    Stderr "Usage: python3 check_db_connection.py <host> <port> <dbname> <user>";
    Stderr "Note: Set PGPASSWORD environment variable for password" ].

(** [main]: [argv] is [sys.argv], the script name first. *)
Definition main (argv : list string) (environ : gmap string string)
    (d : driver) : list db_event * db_outcome :=
  match argv with
  | [_; host; port; dbname; user] =>
      let password := from_option id "" (environ !! "PGPASSWORD") in
      if is_empty password then
        ([Stderr "Error: PGPASSWORD environment variable not set"], DbExit 2)
      else
        let '(t, r) := check_connection d host port dbname user password in
        (t, match r with
            | Ok true => DbExit 0
            | Ok false => DbExit 1
            | Raise e => DbUncaught e
            end)
  | _ => (usage, DbExit 2)
  end.


End DbCheck.

(* ===================================================================== *)
(** ** Further vocabulary *)
(* ===================================================================== *)

(** A probe result is coherent: success comes with zone information and
    no error text, failure with an error text and no zone information. *)
Definition coherent (r : probe_result) : bool :=
  match r with
  | (true, None, Some _) => true
  | (false, Some _, None) => true
  | _ => false
  end.

Definition zones_endpoint : string :=
  "https://api.cloudflare.com/client/v4/zones".

Definition request_url (e : event) : option string :=
  match e with UrlOpen url => Some url | _ => None end.

(** What a trace did besides logging. *)
Definition actions (t : list event) : list event :=
  List.filter (fun e => negb (quiet e)) t.

(** A network on which every request raises the same exception. *)
Definition always_raising (e : exn) : string -> string -> result json :=
  fun _ _ => Raise e.

Definition is_object (v : json) : bool :=
  match v with JObj _ => true | _ => false end.

(** The text of one entry of a response's [errors] list, with the
    defaults the comprehension uses for a missing code or message. *)
Definition error_text (repr_other : json -> string) (e : json) : string :=
  match e with
  | JObj items =>
      fmt repr_other (from_option id (JStr "unknown")
                        (dict_lookup items "code"))
      +:+ ": "
      +:+ fmt repr_other (from_option id (JStr "unknown error")
                            (dict_lookup items "message"))
  | _ => ""
  end.

Definition insufficient_permissions : string :=
  "API token is valid but has insufficient permissions. Ensure it has 'Zone > DNS > Edit' permission.".

Definition dns_cloudflare : list string :=
  ["LE_CHALLENGE=dns"; "LE_DNS_PROVIDER=cloudflare"].

Definition world_placeholder : world :=
  world_of (dns_cloudflare ++ ["DOMAIN=paste-domain-here"]) StoreMissing.

Definition world_no_credentials : world :=
  world_of (dns_cloudflare ++ ["DOMAIN=example.com"; "SUBDOMAIN=app"])
           StoreMissing.

(** The domains [main] asks the certificate check about. *)
Definition configured_domains (w : world) : list string :=
  requested_domains (config_value w "DOMAIN") (config_value w "SUBDOMAIN").


(** The four keys [main] itself reads. *)
Definition main_keys : list string :=
  ["LE_CHALLENGE"; "LE_DNS_PROVIDER"; "DOMAIN"; "SUBDOMAIN"].

(** The name the second step reports for a zone: its [name] entry, or
    [None] when it has none. *)
Definition reported_name (zone : json) : json :=
  match zone with
  | JObj items => from_option id JNull (dict_lookup items "name")
  | _ => JNull
  end.

(** A network that lists the given zones and raises on every other
    request. *)
Definition refusing_records (zones : list json) (e : exn)
  : string -> string -> result json :=
  fun url _ =>
    if String.eqb url list_zones_url then Ok (zones_reply zones)
    else Raise e.

(** A world that differs in its environment and configuration file. *)
Definition with_config (w : world) (environ' : gmap string string)
    (f : env_file) : world :=
  World environ' f (acme_storage w) (store_found w) (py_repr w) (net w).


(* ===================================================================== *)
(** ** Properties of [main] *)
(* ===================================================================== *)

Lemma quiet_load_env_file_output (f : env_file) :
  forallb quiet (load_env_file_output f) = true.
Proof.
  destruct f as [|e|lines failure]; simpl; try reflexivity.
  destruct (read_lines lines failure ∅); reflexivity.
Qed.

Lemma quiet_no_probe (t : list event) :
  forallb quiet t = true -> forallb no_probe t = true.
Proof.
  induction t as [|e t IH]; simpl; [reflexivity|].
  destruct e as [lv msg|f|url]; simpl; try discriminate.
  exact IH.
Qed.

Lemma eqb_false_of_neq (a b : string) : a <> b -> String.eqb a b = false.
Proof. intros H. apply String.eqb_neq. exact H. Qed.

(** C1.  When [LE_CHALLENGE] is not exactly [dns], or it is and
    [LE_DNS_PROVIDER] is not exactly [cloudflare], the run ends at one of
    the two skip exits with exit code 0; its trace holds log lines only
    (no certificate check, no credential check, no request); and any other
    run that reads the same two values (and prints the same
    configuration-file diagnostics) behaves identically, whatever its
    domain, subdomain, credentials, store and network are. *)
Theorem C1_skip_when_not_dns_cloudflare (w : world) :
  config_value w "LE_CHALLENGE" <> "dns"
  \/ (config_value w "LE_CHALLENGE" = "dns"
      /\ config_value w "LE_DNS_PROVIDER" <> "cloudflare") ->
  is_skip (main w).2 = true
  /\ exit_code (main w).2 = 0%Z
  /\ forallb quiet (main w).1 = true
  /\ forall w' : world,
       config_value w' "LE_CHALLENGE" = config_value w "LE_CHALLENGE" ->
       config_value w' "LE_DNS_PROVIDER" = config_value w "LE_DNS_PROVIDER" ->
       load_env_file_output (env_file_found w')
         = load_env_file_output (env_file_found w) ->
       main w' = main w.
Proof.
  intros H.
  assert (Hq : forall l, forallb quiet
            (load_env_file_output (env_file_found w) ++ [Log INFO l]) = true).
  { intros l. rewrite forallb_app, quiet_load_env_file_output. reflexivity. }
  destruct H as [Hc | [Hc Hp]].
  - apply eqb_false_of_neq in Hc.
    assert (Hmain : forall w' : world,
              config_value w' "LE_CHALLENGE" = config_value w "LE_CHALLENGE" ->
              load_env_file_output (env_file_found w')
                = load_env_file_output (env_file_found w) ->
              main w' =
              (load_env_file_output (env_file_found w)
                 ++ [Log INFO "LE_CHALLENGE is not 'dns' - skipping Cloudflare DNS check"],
               Exit SkipNotDns)).
    { intros w' E1 E3. unfold main. fold (config_value w' "LE_CHALLENGE").
      rewrite E1, E3, Hc. reflexivity. }
    rewrite (Hmain w) by reflexivity. simpl. rewrite Hq.
    repeat split. intros w' E1 _ E3. apply Hmain; assumption.
  - apply eqb_false_of_neq in Hp.
    assert (Hmain : forall w' : world,
              config_value w' "LE_CHALLENGE" = config_value w "LE_CHALLENGE" ->
              config_value w' "LE_DNS_PROVIDER"
                = config_value w "LE_DNS_PROVIDER" ->
              load_env_file_output (env_file_found w')
                = load_env_file_output (env_file_found w) ->
              main w' =
              (load_env_file_output (env_file_found w)
                 ++ [Log INFO ("LE_DNS_PROVIDER is '"
                       +:+ config_value w "LE_DNS_PROVIDER"
                       +:+ "' (not 'cloudflare') - skipping Cloudflare check")],
               Exit SkipNotCloudflare)).
    { intros w' E1 E2 E3. unfold main.
      fold (config_value w' "LE_CHALLENGE").
      fold (config_value w' "LE_DNS_PROVIDER").
      rewrite E1, E2, E3, Hc, Hp. reflexivity. }
    rewrite (Hmain w) by reflexivity. simpl. rewrite Hq.
    repeat split. intros w' E1 E2 E3. apply Hmain; assumption.
Qed.

(** C2.  With [LE_CHALLENGE=dns], [LE_DNS_PROVIDER=cloudflare], a
    configured domain and a certificate check that reports every requested
    domain found, the run ends at the certificates-valid exit with code 0;
    its trace holds no credential check, no entry into the API probe and
    no request; and the run is the same under any other network. *)
Theorem C2_pass_without_probe (w : world) (status : string) :
  config_value w "LE_CHALLENGE" = "dns" ->
  config_value w "LE_DNS_PROVIDER" = "cloudflare" ->
  config_value w "DOMAIN" <> "" ->
  config_value w "DOMAIN" <> "paste-domain-here" ->
  check_certificates_exist_and_valid (store_found w) (acme_storage w)
    (requested_domains (config_value w "DOMAIN") (config_value w "SUBDOMAIN"))
    = Ok (true, status) ->
  (main w).2 = Exit PassCertsValid
  /\ exit_code (main w).2 = 0%Z
  /\ forallb no_probe (main w).1 = true
  /\ forall (repr' : json -> string) (net' : string -> string -> result json),
       main (World (environ w) (env_file_found w) (acme_storage w)
                   (store_found w) repr' net') = main w.
Proof.
  unfold config_value. intros Hc Hp Hd Hd' Hchk.
  assert (Hne : is_empty (get_env_value (environ w) "DOMAIN"
                  (load_env_file (env_file_found w))) = false).
  { destruct (get_env_value _ "DOMAIN" _); [congruence | reflexivity]. }
  apply eqb_false_of_neq in Hd'.
  assert (Hmain : forall w', environ w' = environ w ->
            env_file_found w' = env_file_found w ->
            acme_storage w' = acme_storage w ->
            store_found w' = store_found w ->
            main w' =
            (load_env_file_output (env_file_found w)
               ++ [Log INFO "DNS-01 challenge with Cloudflare provider detected"]
               ++ [Log INFO ("Checking certificates for domains: "
                     +:+ join ", " (requested_domains
                           (get_env_value (environ w) "DOMAIN"
                              (load_env_file (env_file_found w)))
                           (get_env_value (environ w) "SUBDOMAIN"
                              (load_env_file (env_file_found w)))));
                   Called CertCheck;
                   Log PASS "Valid certificates already exist for all domains";
                   Log INFO "Skipping Cloudflare credential validation (certificates present)";
                   Log INFO status],
             Exit PassCertsValid)).
  { intros w' E1 E2 E3 E4. unfold main, main_certificates.
    rewrite E1, E2, E3, E4, Hc, Hp, Hne, Hd', Hchk. simpl.
    rewrite <- app_assoc. reflexivity. }
  rewrite (Hmain w) by reflexivity.
  repeat split.
  - simpl. rewrite forallb_app.
    rewrite (quiet_no_probe _ (quiet_load_env_file_output _)). reflexivity.
  - intros repr' net'. apply Hmain; reflexivity.
Qed.

Lemma C1_skip_witness :
  is_skip (main world_http).2 = true /\ exit_code (main world_http).2 = 0%Z.
Proof.
  assert (H : config_value world_http "LE_CHALLENGE" <> "dns"
              \/ (config_value world_http "LE_CHALLENGE" = "dns"
                  /\ config_value world_http "LE_DNS_PROVIDER" <> "cloudflare")).
  { left. vm_compute. discriminate. }
  destruct (C1_skip_when_not_dns_cloudflare world_http H) as (H1 & H2 & _).
  split; assumption.
Defined.

Lemma C2_pass_witness :
  (main world_certs_present).2 = Exit PassCertsValid
  /\ forallb no_probe (main world_certs_present).1 = true.
Proof.
  destruct (C2_pass_without_probe world_certs_present
              "Certificate found for example.com") as (H1 & _ & H3 & _).
  - vm_compute; reflexivity.
  - vm_compute; reflexivity.
  - vm_compute; discriminate.
  - vm_compute; discriminate.
  - vm_compute; reflexivity.
  - split; assumption.
Defined.

(* ===================================================================== *)
(** ** Properties of the credential check *)
(* ===================================================================== *)

Lemma is_empty_true (s : string) : is_empty s = true <-> s = "".
Proof. destruct s; simpl; split; congruence. Qed.

Lemma is_empty_false (s : string) : is_empty s = false <-> s <> "".
Proof. destruct s; simpl; split; congruence. Qed.

Lemma get_env_value_effective (environ env_vars : gmap string string)
    (name : string) :
  get_env_value environ name env_vars = effective_value environ env_vars name.
Proof.
  unfold get_env_value, effective_value.
  destruct (environ !! name); [reflexivity|].
  destruct (env_vars !! name); reflexivity.
Qed.

(** C7.  For a configuration made of the process environment and the file
    mapping, the value of a variable is the environment's when set there,
    else the file's, else empty.  The credential check takes the value of
    [CF_DNS_API_TOKEN] when it is not empty, else the value of
    [CF_API_TOKEN] when that is not empty; when both are empty or absent
    it returns [(False, None, message)] and the message names both
    variables.  No other variable matters. *)
Theorem C7_credential_priority (environ env_vars : gmap string string) :
  let preferred := effective_value environ env_vars "CF_DNS_API_TOKEN" in
  let legacy := effective_value environ env_vars "CF_API_TOKEN" in
  (preferred <> "" ->
     validate_cloudflare_credentials environ env_vars
       = (true, Some preferred, None))
  /\ (preferred = "" -> legacy <> "" ->
     validate_cloudflare_credentials environ env_vars
       = (true, Some legacy, None))
  /\ (preferred = "" -> legacy = "" ->
     exists msg,
       validate_cloudflare_credentials environ env_vars
         = (false, None, Some msg)
       /\ contains "- CF_DNS_API_TOKEN (preferred" msg = true
       /\ contains "- CF_API_TOKEN (legacy" msg = true)
  /\ (forall environ' env_vars' : gmap string string,
       effective_value environ' env_vars' "CF_DNS_API_TOKEN" = preferred ->
       effective_value environ' env_vars' "CF_API_TOKEN" = legacy ->
       validate_cloudflare_credentials environ' env_vars'
         = validate_cloudflare_credentials environ env_vars).
Proof.
  intros preferred legacy. unfold validate_cloudflare_credentials.
  rewrite !get_env_value_effective. fold preferred legacy.
  repeat split.
  - intros H. apply is_empty_false in H. rewrite H, H. reflexivity.
  - intros H H'. apply is_empty_true in H. apply is_empty_false in H'.
    rewrite H, H'. reflexivity.
  - intros H H'. apply is_empty_true in H. apply is_empty_true in H'.
    rewrite H, H'. eexists. split; [reflexivity|].
    split; vm_compute; reflexivity.
  - intros environ' env_vars' E1 E2.
    rewrite !get_env_value_effective, E1, E2. reflexivity.
Qed.

(** The preferred variable wins from the file over a legacy variable in
    the environment; a non-empty legacy value is used when the preferred
    one is set but empty; with neither, the check fails. *)
Lemma C7_credential_priority_witness :
  validate_cloudflare_credentials
    {[ "CF_API_TOKEN" := "legacy-in-environment" ]}
    {[ "CF_DNS_API_TOKEN" := "preferred-in-file";
       "CF_API_TOKEN" := "legacy-in-file" ]}
  = (true, Some "preferred-in-file", None)
  /\ validate_cloudflare_credentials
       {[ "CF_DNS_API_TOKEN" := "" ]}
       {[ "CF_DNS_API_TOKEN" := "preferred-in-file";
          "CF_API_TOKEN" := "legacy-in-file" ]}
     = (true, Some "legacy-in-file", None)
  /\ exists msg,
       validate_cloudflare_credentials
         {[ "DOMAIN" := "example.com" ]} {[ "CF_DNS_API_TOKEN" := "" ]}
       = (false, None, Some msg)
       /\ contains "- CF_DNS_API_TOKEN (preferred" msg = true
       /\ contains "- CF_API_TOKEN (legacy" msg = true.
Proof.
  split; [|split].
  - generalize (proj1 (C7_credential_priority
                    {[ "CF_API_TOKEN" := "legacy-in-environment" ]}
                    {[ "CF_DNS_API_TOKEN" := "preferred-in-file";
                       "CF_API_TOKEN" := "legacy-in-file" ]})).
    vm_compute. intros H. apply H. discriminate.
  - generalize (proj1 (proj2 (C7_credential_priority
                    {[ "CF_DNS_API_TOKEN" := "" ]}
                    {[ "CF_DNS_API_TOKEN" := "preferred-in-file";
                       "CF_API_TOKEN" := "legacy-in-file" ]}))).
    vm_compute. intros H. apply H; [reflexivity | discriminate].
  - generalize (proj1 (proj2 (proj2 (C7_credential_priority
                    {[ "DOMAIN" := "example.com" ]}
                    {[ "CF_DNS_API_TOKEN" := "" ]})))).
    cbv zeta.
    replace (effective_value {[ "DOMAIN" := "example.com" ]}
               {[ "CF_DNS_API_TOKEN" := "" ]} "CF_DNS_API_TOKEN")
      with "" by (vm_compute; reflexivity).
    replace (effective_value {[ "DOMAIN" := "example.com" ]}
               {[ "CF_DNS_API_TOKEN" := "" ]} "CF_API_TOKEN")
      with "" by (vm_compute; reflexivity).
    intros H. apply H; reflexivity.
Defined.

(* ===================================================================== *)
(** ** Properties of [load_env_file] *)
(* ===================================================================== *)

Lemma split_first_has_char (sep : ascii) (s : string) :
  has_char sep s = true -> exists k v, split_first sep s = (k, Some v).
Proof.
  induction s as [|c s IH]; simpl; [discriminate|].
  destruct (Ascii.eqb c sep); simpl.
  - intros _. eauto.
  - intros H. destruct (IH H) as (k & v & E). rewrite E. eauto.
Qed.

(** Parsing one line never raises: the unpacking always gets two parts. *)
Lemma parse_line_ok (line : string) (env_vars : gmap string string) :
  exists env_vars', parse_line line env_vars = Ok env_vars'.
Proof.
  unfold parse_line.
  destruct (is_empty (strip line) || startswith (strip line) "#"); [eauto|].
  destruct (has_char "=" (strip line)) eqn:H; [|eauto].
  destruct (split_first_has_char _ _ H) as (k & v & E). rewrite E. eauto.
Qed.

Lemma read_lines_complete (lines : list string) (env_vars : gmap string string) :
  exists env_vars', read_lines lines None env_vars = Ok env_vars'.
Proof.
  revert env_vars. induction lines as [|l lines IH]; intros env_vars; simpl.
  - eauto.
  - destruct (parse_line_ok l env_vars) as (e' & E). rewrite E. simpl.
    apply IH.
Qed.

Lemma read_lines_failure (lines : list string) (e : exn)
    (env_vars : gmap string string) :
  read_lines lines (Some e) env_vars = Raise e.
Proof.
  revert env_vars. induction lines as [|l lines IH]; intros env_vars; simpl.
  - reflexivity.
  - destruct (parse_line_ok l env_vars) as (e' & E). rewrite E. simpl.
    apply IH.
Qed.

(** C10.  When reading the file fails, at [open] or after any number of
    lines, [load_env_file] returns the empty mapping and reports that
    exception: the pairs parsed from the lines read so far are dropped,
    although the same lines followed by a clean end of file yield them. *)
Theorem C10_failure_discards_partial_parse :
  (forall (lines : list string) (e : exn),
     load_env_file (EnvOpened lines (Some e)) = ∅
     /\ load_env_file_output (EnvOpened lines (Some e)) = [parse_failure e])
  /\ (forall e : exn, load_env_file (EnvOpenFails e) = ∅)
  /\ (forall e : exn,
        load_env_file (EnvOpened ["DOMAIN=example.com"; "LE_CHALLENGE=dns"] None)
          !! "DOMAIN" = Some "example.com"
        /\ load_env_file
             (EnvOpened ["DOMAIN=example.com"; "LE_CHALLENGE=dns"] (Some e))
          !! "DOMAIN" = None).
Proof.
  split; [|split].
  - intros lines e. unfold load_env_file, load_env_file_output.
    rewrite read_lines_failure. split; reflexivity.
  - intros e. reflexivity.
  - intros e. split.
    + vm_compute. reflexivity.
    + unfold load_env_file. rewrite read_lines_failure. apply lookup_empty.
Qed.

Lemma read_lines_snoc (lines : list string) (line : string)
    (env_vars : gmap string string) :
  read_lines (lines ++ [line]) None env_vars
  = read_lines lines None env_vars ≫= parse_line line.
Proof.
  revert env_vars. induction lines as [|l lines IH]; intros env_vars; simpl.
  - destruct (parse_line line env_vars); reflexivity.
  - destruct (parse_line l env_vars) as [e'|x]; simpl; [apply IH | reflexivity].
Qed.

(** Reading one more line is one more round of the loop body. *)
Lemma load_env_file_snoc (lines : list string) (line : string) :
  parse_line line (load_env_file (EnvOpened lines None))
  = Ok (load_env_file (EnvOpened (lines ++ [line]) None)).
Proof.
  unfold load_env_file. rewrite read_lines_snoc.
  destruct (read_lines_complete lines ∅) as (env & E). rewrite E. simpl.
  destruct (parse_line_ok line env) as (env' & E'). rewrite E'. reflexivity.
Qed.

Lemma split_first_at_separator (sep : ascii) (k v : string) :
  has_char sep k = false ->
  split_first sep (k +:+ String sep v) = (k, Some v).
Proof.
  induction k as [|c k IH]; simpl.
  - intros _. rewrite Ascii.eqb_refl. reflexivity.
  - intros H. apply orb_false_iff in H as [Hc Hk].
    rewrite Hc, (IH Hk). reflexivity.
Qed.

Lemma has_char_app (sep : ascii) (a b : string) :
  has_char sep (a +:+ b) = has_char sep a || has_char sep b.
Proof.
  induction a as [|c a IH]; simpl; [reflexivity|].
  rewrite IH. apply orb_assoc.
Qed.

Lemma endswith_app (a p : string) : endswith (a +:+ p) p = true.
Proof.
  induction a as [|c a IH].
  - change ("" +:+ p) with p.
    destruct p; unfold endswith; fold endswith;
      rewrite String.eqb_refl; reflexivity.
  - change (String c a +:+ p) with (String c (a +:+ p)).
    unfold endswith; fold endswith. rewrite IH. apply orb_true_r.
Qed.

Lemma drop_last_snoc (s : string) (c : ascii) :
  drop_last (s +:+ String c "") = s.
Proof.
  induction s as [|a s IH]; simpl; [reflexivity|].
  rewrite IH. destruct s; reflexivity.
Qed.

Lemma string_app_cons (a : ascii) (s t : string) :
  String a s +:+ t = String a (s +:+ t).
Proof. reflexivity. Qed.

Lemma string_app_nil_r (s : string) : s +:+ "" = s.
Proof.
  induction s as [|c s IH]; [reflexivity|].
  rewrite string_app_cons, IH. reflexivity.
Qed.

Lemma app_assoc_string (a b c : string) : (a +:+ b) +:+ c = a +:+ (b +:+ c).
Proof.
  induction a as [|x a IH]; [reflexivity|].
  change (String x ((a +:+ b) +:+ c) = String x (a +:+ (b +:+ c))).
  congruence.
Qed.

Lemma unquote_double (inner : string) : unquote (dq +:+ inner +:+ dq) = inner.
Proof.
  unfold unquote.
  replace (startswith (dq +:+ inner +:+ dq) dq) with true by reflexivity.
  rewrite <- app_assoc_string, endswith_app. simpl.
  unfold slice_1_m1. simpl. apply drop_last_snoc.
Qed.

Lemma unquote_single (inner : string) : unquote ("'" +:+ inner +:+ "'") = inner.
Proof.
  unfold unquote.
  replace (startswith ("'" +:+ inner +:+ "'") dq) with false by reflexivity.
  replace (startswith ("'" +:+ inner +:+ "'") "'") with true by reflexivity.
  rewrite <- app_assoc_string, endswith_app. simpl.
  unfold slice_1_m1. simpl. apply drop_last_snoc.
Qed.

Lemma has_char_lstrip (c : ascii) (s : string) :
  has_char c s = false -> has_char c (lstrip s) = false.
Proof.
  induction s as [|a s IH]; [reflexivity|].
  intros H. cbn [lstrip]. destruct (is_space a); [|exact H].
  cbn [has_char] in H. apply orb_false_iff in H as [_ H]. apply IH, H.
Qed.

Lemma has_char_rstrip (c : ascii) (s : string) :
  has_char c s = false -> has_char c (rstrip s) = false.
Proof.
  induction s as [|a s IH]; [reflexivity|].
  cbn [has_char rstrip]. intros H. apply orb_false_iff in H as [Ha Hs].
  destruct (is_space a && is_empty (rstrip s)); [reflexivity|].
  cbn [has_char]. rewrite Ha, (IH Hs). reflexivity.
Qed.

Lemma has_char_strip (c : ascii) (s : string) :
  has_char c s = false -> has_char c (strip s) = false.
Proof. intros H. apply has_char_rstrip, has_char_lstrip, H. Qed.

Lemma is_space_ws (c : ascii) : is_space c = is_ws c.
Proof. destruct c as [[] [] [] [] [] [] [] []]; reflexivity. Qed.

Lemma lstrip_all_ws (l t : string) :
  all_ws l = true -> lstrip (l +:+ t) = lstrip t.
Proof.
  induction l as [|c l IH]; [reflexivity|].
  cbn [all_ws]. intros H. apply andb_true_iff in H as [Hc Hl].
  rewrite string_app_cons. cbn [lstrip]. rewrite is_space_ws, Hc.
  apply IH, Hl.
Qed.

Lemma rstrip_all_ws (r : string) : all_ws r = true -> rstrip r = "".
Proof.
  induction r as [|c r IH]; [reflexivity|].
  cbn [all_ws]. intros H. apply andb_true_iff in H as [Hc Hr].
  cbn [rstrip]. rewrite (IH Hr), is_space_ws, Hc. reflexivity.
Qed.

Lemma rstrip_app_ws (t r : string) :
  all_ws r = true -> rstrip (t +:+ r) = rstrip t.
Proof.
  intros H. induction t as [|c t IH]; [apply rstrip_all_ws, H|].
  rewrite string_app_cons. cbn [rstrip]. rewrite IH. reflexivity.
Qed.

Lemma rstrip_last (t : string) (c : ascii) :
  last_char t = Some c -> is_ws c = false -> rstrip t = t.
Proof.
  intros Hl Hc. induction t as [|a t IH]; [reflexivity|].
  cbn [rstrip]. destruct t as [|b t].
  - injection Hl as ->. simpl. rewrite is_space_ws, Hc. reflexivity.
  - rewrite (IH Hl). cbn [is_empty]. rewrite andb_false_r. reflexivity.
Qed.

Lemma last_char_cons (a : ascii) (t : string) :
  exists c, last_char (String a t) = Some c.
Proof.
  revert a. induction t as [|b t IH]; intros a; [exists a; reflexivity|].
  destruct (IH b) as (c & E). exists c. exact E.
Qed.

Lemma strip_trims_to (s t : string) : trims_to s t -> strip s = t.
Proof.
  intros (l & r & -> & Hl & Hr & Ht). unfold strip.
  rewrite (lstrip_all_ws _ _ Hl).
  destruct t as [|a t].
  - change ("" +:+ r) with r.
    rewrite <- (string_app_nil_r r), (lstrip_all_ws _ _ Hr). reflexivity.
  - unfold tight in Ht. cbn [first_char] in Ht.
    destruct (last_char_cons a t) as (c & Ec). rewrite Ec in Ht.
    apply andb_true_iff in Ht as [Ha Hc].
    apply negb_true_iff in Ha, Hc.
    rewrite string_app_cons. cbn [lstrip]. rewrite is_space_ws, Ha.
    rewrite <- string_app_cons, (rstrip_app_ws _ _ Hr).
    apply (rstrip_last _ c Ec Hc).
Qed.

Lemma strip_all_ws (s : string) : all_ws s = true -> strip s = "".
Proof.
  intros H. apply strip_trims_to. exists s, "".
  rewrite string_app_nil_r. repeat split. exact H.
Qed.

Lemma has_char_occurs (c : ascii) (s : string) :
  has_char c s = true <-> occurs c s.
Proof.
  split.
  - induction s as [|a s IH]; [discriminate|].
    cbn [has_char]. intros H. apply orb_true_iff in H as [H | H].
    + apply Ascii.eqb_eq in H as ->. exists "", s. reflexivity.
    + destruct (IH H) as (x & y & ->). exists (String a x), y. reflexivity.
  - intros (x & y & ->). rewrite has_char_app. cbn [has_char].
    rewrite Ascii.eqb_refl. apply orb_true_r.
Qed.

Lemma has_char_absent (c : ascii) (s : string) :
  has_char c s = false <-> ~ occurs c s.
Proof.
  rewrite <- has_char_occurs. destruct (has_char c s); split; congruence.
Qed.

Lemma endswith_suffix (s p : string) :
  endswith s p = true -> exists a, s = a +:+ p.
Proof.
  induction s as [|c s IH].
  - cbn [endswith]. rewrite orb_false_r. intros H.
    apply String.eqb_eq in H as <-. exists "". reflexivity.
  - cbn [endswith]. intros H. apply orb_true_iff in H as [H | H].
    + apply String.eqb_eq in H as <-. exists "". reflexivity.
    + destruct (IH H) as (a & ->). exists (String c a). reflexivity.
Qed.

Lemma enclosed_shape (q : ascii) (value : string) :
  startswith value (String q "") && endswith value (String q "") = true ->
  value = String q ""
  \/ exists inner, value = String q "" +:+ inner +:+ String q "".
Proof.
  intros H. apply andb_true_iff in H as [Hs He].
  destruct value as [|a rest]; [discriminate|].
  cbn [startswith] in Hs. rewrite andb_true_r in Hs.
  apply Ascii.eqb_eq in Hs as ->.
  cbn [endswith] in He. apply orb_true_iff in He as [He | He].
  - apply String.eqb_eq in He. left. exact He.
  - destruct (endswith_suffix _ _ He) as (inner & ->). right.
    exists inner. reflexivity.
Qed.

Lemma unquote_unenclosed (value : string) :
  value <> dq -> value <> "'" ->
  (forall inner, value <> dq +:+ inner +:+ dq) ->
  (forall inner, value <> "'" +:+ inner +:+ "'") ->
  unquote value = value.
Proof.
  intros Hd Hs Hdd Hss. unfold unquote.
  destruct (startswith value dq && endswith value dq) eqn:E.
  { destruct (enclosed_shape _ _ E) as [H | (inner & H)];
      [destruct (Hd H) | destruct (Hdd inner H)]. }
  destruct (startswith value "'" && endswith value "'") eqn:E'.
  { destruct (enclosed_shape _ _ E') as [H | (inner & H)];
      [destruct (Hs H) | destruct (Hss inner H)]. }
  reflexivity.
Qed.

Lemma assignment_line (lines : list string)
    (line key_part value_part key value : string) :
  trims_to line (key_part +:+ "=" +:+ value_part) ->
  ~ occurs "=" key_part ->
  (forall rest, key_part <> "#" +:+ rest) ->
  trims_to key_part key ->
  trims_to value_part value ->
  load_env_file (EnvOpened (lines ++ [line]) None)
  = <[key := unquote value]> (load_env_file (EnvOpened lines None)).
Proof.
  intros Hl Hk Hc Hkey Hvalue.
  pose proof (load_env_file_snoc lines line) as E.
  unfold parse_line in E.
  rewrite (strip_trims_to _ _ Hl) in E.
  apply has_char_absent in Hk.
  replace (is_empty (key_part +:+ "=" +:+ value_part)) with false in E
    by (destruct key_part; reflexivity).
  replace (startswith (key_part +:+ "=" +:+ value_part) "#") with false in E.
  2:{ destruct key_part as [|a k]; [reflexivity|].
      rewrite string_app_cons. cbn [startswith]. rewrite andb_true_r.
      symmetry. apply Ascii.eqb_neq. intros ->. exact (Hc k eq_refl). }
  replace (has_char "=" (key_part +:+ "=" +:+ value_part)) with true in E
    by (rewrite has_char_app; simpl; now rewrite orb_true_r).
  cbn [orb] in E.
  change (key_part +:+ "=" +:+ value_part)
    with (key_part +:+ String "=" value_part) in E.
  rewrite (split_first_at_separator _ _ _ Hk) in E.
  rewrite (strip_trims_to _ _ Hkey), (strip_trims_to _ _ Hvalue) in E.
  congruence.
Qed.

(** C8.  A missing file gives the empty mapping.  A line made of
    whitespace only, a line whose first character after the leading
    whitespace is [#], and a line with no [=] leave the mapping read so
    far unchanged.  Any other line is cut at its first [=]: the text
    before it, without the whitespace at its two ends, is the key; the
    text after it, without the whitespace at its two ends and with one
    enclosing pair of double or single quotes removed, is the value.  A
    value that is a lone quote character becomes empty, and a value not
    enclosed in a matching pair is kept as it is.  Both
    [DOMAIN="example.com"] and [DOMAIN=example.com] bind [DOMAIN] to
    [example.com], with or without whitespace around the key, the value
    and the line, and a later line with no [=] takes nothing away. *)
Theorem C8_load_env_file_parsing :
  load_env_file EnvMissing = ∅
  /\ (forall (lines : list string) (line : string),
        all_ws line = true ->
        load_env_file (EnvOpened (lines ++ [line]) None)
          = load_env_file (EnvOpened lines None))
  /\ (forall (lines : list string) (line rest : string),
        trims_to line ("#" +:+ rest) ->
        load_env_file (EnvOpened (lines ++ [line]) None)
          = load_env_file (EnvOpened lines None))
  /\ (forall (lines : list string) (line : string),
        ~ occurs "=" line ->
        load_env_file (EnvOpened (lines ++ [line]) None)
          = load_env_file (EnvOpened lines None))
  /\ (forall (lines : list string)
             (line key_part value_part key value : string),
        trims_to line (key_part +:+ "=" +:+ value_part) ->
        ~ occurs "=" key_part ->
        (forall rest, key_part <> "#" +:+ rest) ->
        trims_to key_part key ->
        trims_to value_part value ->
        load_env_file (EnvOpened (lines ++ [line]) None)
          = <[key := unquote value]>
              (load_env_file (EnvOpened lines None)))
  /\ (forall inner : string,
        unquote (dq +:+ inner +:+ dq) = inner
        /\ unquote ("'" +:+ inner +:+ "'") = inner)
  /\ (unquote dq = "" /\ unquote "'" = "")
  /\ (forall value : string,
        value <> dq -> value <> "'" ->
        (forall inner, value <> dq +:+ inner +:+ dq) ->
        (forall inner, value <> "'" +:+ inner +:+ "'") ->
        unquote value = value)
  /\ load_env_file (EnvOpened ["DOMAIN=" +:+ dq +:+ "example.com" +:+ dq] None)
       !! "DOMAIN" = Some "example.com"
  /\ load_env_file (EnvOpened ["DOMAIN=example.com"] None)
       !! "DOMAIN" = Some "example.com"
  /\ load_env_file
       (EnvOpened ["DOMAIN=example.com"; "not an assignment"] None)
       !! "DOMAIN" = Some "example.com"
  /\ load_env_file
       (EnvOpened
          [tab +:+ "DOMAIN = " +:+ dq +:+ "example.com" +:+ dq +:+ "  " +:+ nl;
           "  # DOMAIN=other.org" +:+ nl;
           " " +:+ tab +:+ nl;
           "URL= 'https://example.com/?a=b' " +:+ nl;
           "NAME=  Simple Login " +:+ nl]
          None)
     = {[ "DOMAIN" := "example.com";
          "URL" := "https://example.com/?a=b";
          "NAME" := "Simple Login" ]}.
Proof.
  split; [reflexivity|].
  split; [|split; [|split; [|split; [|split; [|split; [|split]]]]]].
  - intros lines line H.
    pose proof (load_env_file_snoc lines line) as E.
    unfold parse_line in E. rewrite (strip_all_ws _ H) in E.
    cbn [is_empty orb] in E. congruence.
  - intros lines line rest H.
    pose proof (load_env_file_snoc lines line) as E.
    unfold parse_line in E. rewrite (strip_trims_to _ _ H) in E.
    replace (startswith ("#" +:+ rest) "#") with true in E by reflexivity.
    rewrite orb_true_r in E. congruence.
  - intros lines line H.
    pose proof (load_env_file_snoc lines line) as E.
    unfold parse_line in E.
    apply has_char_absent in H. rewrite (has_char_strip _ _ H) in E.
    destruct (is_empty (strip line) || startswith (strip line) "#");
      congruence.
  - exact assignment_line.
  - intros inner. split; [apply unquote_double | apply unquote_single].
  - split; reflexivity.
  - exact unquote_unenclosed.
  - repeat split; vm_compute; reflexivity.
Qed.

(** A line with a tab before the key, spaces around the [=], a quoted
    value and trailing whitespace, read after a comment line. *)
Lemma C8_load_env_file_witness :
  load_env_file
    (EnvOpened
       ["# settings" +:+ nl;
        tab +:+ "DOMAIN = " +:+ dq +:+ "example.com" +:+ dq +:+ "  " +:+ nl]
       None)
  = {[ "DOMAIN" := "example.com" ]}.
Proof.
  assert (H := proj1 (proj2 (proj2 (proj2 (proj2 C8_load_env_file_parsing))))
                 ["# settings" +:+ nl]
                 (tab +:+ "DOMAIN = " +:+ dq +:+ "example.com" +:+ dq
                  +:+ "  " +:+ nl)
                 "DOMAIN " (" " +:+ dq +:+ "example.com" +:+ dq)
                 "DOMAIN" (dq +:+ "example.com" +:+ dq)).
  transitivity
    (<["DOMAIN" := unquote (dq +:+ "example.com" +:+ dq)]>
       (load_env_file (EnvOpened ["# settings" +:+ nl] None))).
  - apply H.
    + exists tab, ("  " +:+ nl). repeat split.
    + apply has_char_absent. reflexivity.
    + intros rest. discriminate.
    + exists "", " ". repeat split.
    + exists " ", "". repeat split.
  - vm_compute. reflexivity.
Defined.

(* ===================================================================== *)
(** ** Properties of [check_certificates_exist_and_valid] *)
(* ===================================================================== *)

Lemma record_label (cert : json) :
  record_ok cert = true ->
  (py_get cert "domain" (JObj []) ≫= fun d => py_get d "main" (JStr ""))
  = Ok (main_label cert).
Proof.
  destruct cert as [| | | | |l|items]; simpl; try discriminate.
  destruct (dict_lookup items "domain") as [[| | | | |l|d]|]; simpl;
    try discriminate; reflexivity.
Qed.

Lemma scan_certificates_records (certs : list json) (domain : string)
    (messages : list string) :
  forallb record_ok certs = true ->
  scan_certificates certs domain messages
  = Ok (satisfied certs domain, satisfied certs domain,
        if satisfied certs domain then messages ++ [msg_found domain]
        else messages).
Proof.
  induction certs as [|cert certs IH]; simpl; [reflexivity|].
  intros H. apply andb_true_iff in H as [Hc Hr].
  pose proof (record_label cert Hc) as E.
  destruct (py_get cert "domain" (JObj [])) as [d|e]; simpl in E;
    [|discriminate].
  simpl. rewrite E. simpl.
  destruct (cert_matches (main_label cert) domain); simpl; [reflexivity|].
  apply IH, Hr.
Qed.

Lemma check_domain_records (certs : list json) (domain : string)
    (all_valid : bool) (messages : list string) :
  forallb record_ok certs = true ->
  check_domain (JArr certs) domain (all_valid, messages)
  = Ok (all_valid && satisfied certs domain,
        messages ++ [domain_message certs domain]).
Proof.
  intros H. unfold check_domain, domain_message. simpl.
  rewrite (scan_certificates_records _ _ _ H). simpl.
  destruct (satisfied certs domain); simpl.
  - rewrite andb_true_r. reflexivity.
  - rewrite andb_false_r. reflexivity.
Qed.

Lemma check_domains_records (certs : list json) (domains : list string)
    (all_valid : bool) (messages : list string) :
  forallb record_ok certs = true ->
  check_domains (JArr certs) domains (all_valid, messages)
  = Ok (all_valid && forallb (satisfied certs) domains,
        messages ++ map (domain_message certs) domains).
Proof.
  intros H. revert all_valid messages.
  induction domains as [|d domains IH]; intros all_valid messages.
  - simpl. rewrite andb_true_r, app_nil_r. reflexivity.
  - cbn [check_domains]. rewrite (check_domain_records _ _ _ _ H).
    simpl. rewrite IH. rewrite <- andb_assoc, <- app_assoc. reflexivity.
Qed.

Lemma py_eq_str_spec (v : json) (s : string) :
  py_eq_str v s = true <-> v = JStr s.
Proof.
  destruct v; simpl; try (split; [discriminate | intros [=]]).
  rewrite String.eqb_eq. split; [congruence | intros [=]; assumption].
Qed.

Lemma satisfied_spec (certs : list json) (domain : string) :
  satisfied certs domain = true <-> Exists (covers domain) certs.
Proof.
  unfold satisfied, covers, cert_matches.
  rewrite existsb_exists, List.Exists_exists.
  split; intros (c & Hin & H); exists c; split; try assumption.
  - apply orb_true_iff in H. rewrite !py_eq_str_spec in H. exact H.
  - apply orb_true_iff. rewrite !py_eq_str_spec. exact H.
Qed.

Lemma store_records_shape (acme_data : json) (certs : list json) :
  store_records acme_data = Some certs ->
  exists items dns_items,
    acme_data = JObj items
    /\ dict_lookup items "dns" = Some (JObj dns_items)
    /\ dict_lookup dns_items "Certificates" = Some (JArr certs)
    /\ certs <> []
    /\ forallb record_ok certs = true.
Proof.
  unfold store_records.
  destruct acme_data as [| | | | |l|items]; try discriminate.
  destruct (dict_lookup items "dns") as [[| | | | |l|dns_items]|] eqn:E1;
    try discriminate.
  destruct (dict_lookup dns_items "Certificates")
    as [[| | | | |[|c cs]|o]|] eqn:E2; try discriminate.
  destruct (forallb record_ok (c :: cs)) eqn:E3; [|discriminate].
  intros [= <-]. exists items, dns_items. repeat split; congruence.
Qed.

Lemma dict_lookup_truthy (items : list (string * json)) (key : string)
    (v : json) :
  dict_lookup items key = Some v -> truthy (JObj items) = true.
Proof. destruct items; simpl; [discriminate | reflexivity]. Qed.

(** C3.  On a well-formed store (an object whose [dns] resolver holds a
    non-empty [Certificates] list of records) a requested domain counts as
    satisfied exactly when some record's main label is the domain or
    [*.<domain>]; the function returns [True] exactly when every requested
    domain is satisfied; and its status string is the per-domain messages,
    in the order of the request, joined with ["; "]. *)
Theorem C3_store_check (acme_data : json) (certs : list json)
    (acme_storage_path : string) (domains : list string) :
  store_records acme_data = Some certs ->
  (forall domain : string,
     satisfied certs domain = true <-> Exists (covers domain) certs)
  /\ (exists all_valid : bool,
        check_certificates_exist_and_valid (StoreParsed acme_data)
          acme_storage_path domains
        = Ok (all_valid, join "; " (map (domain_message certs) domains))
        /\ (all_valid = true <->
            Forall (fun domain => Exists (covers domain) certs) domains)).
Proof.
  intros H. split; [intros domain; apply satisfied_spec|].
  destruct (store_records_shape _ _ H) as (items & dns_items & -> & E1 & E2
                                           & Hne & Hok).
  exists (forallb (satisfied certs) domains). split.
  - unfold check_certificates_exist_and_valid.
    rewrite (dict_lookup_truthy _ _ _ E1). simpl.
    rewrite E1. simpl. rewrite E2. simpl.
    destruct certs as [|c cs]; [congruence|]. simpl negb. cbv iota.
    rewrite (check_domains_records _ _ _ _ Hok). reflexivity.
  - rewrite forallb_forall, List.Forall_forall.
    split; intros Hall d Hin; apply satisfied_spec, Hall, Hin.
Qed.

Lemma C3_store_check_witness :
  exists all_valid : bool,
    check_certificates_exist_and_valid
      (StoreParsed (store_with [cert_record "example.com";
                                cert_record "*.mail.example.com"]))
      "/data/acme-dns.json" ["example.com"; "mail.example.com"; "other.org"]
    = Ok (all_valid,
          "Certificate found for example.com; Certificate found for mail.example.com; No certificate found for other.org")
    /\ (all_valid = true <->
        Forall (fun domain =>
                  Exists (covers domain)
                    [cert_record "example.com";
                     cert_record "*.mail.example.com"])
               ["example.com"; "mail.example.com"; "other.org"]).
Proof.
  exact (proj2 (C3_store_check
                  (store_with [cert_record "example.com";
                               cert_record "*.mail.example.com"])
                  [cert_record "example.com"; cert_record "*.mail.example.com"]
                  "/data/acme-dns.json"
                  ["example.com"; "mail.example.com"; "other.org"]
                  eq_refl)).
Defined.

Lemma expected_store_result (store : store_file)
    (acme_storage_path : string) (domains : list string) :
  store_expected store = true ->
  check_certificates_exist_and_valid store acme_storage_path domains
  = match store with
    | StoreMissing =>
        Ok (false, "ACME storage file not found at " +:+ acme_storage_path)
    | StoreUnreadable e =>
        Ok (false, "Failed to read ACME storage: " +:+ exn_str e)
    | StoreParsed acme_data =>
        match store_records acme_data with
        | Some certs =>
            Ok (forallb (satisfied certs) domains,
                join "; " (map (domain_message certs) domains))
        | None =>
            Ok (false,
                if has_dns_resolver acme_data
                then "No certificates found in DNS resolver storage"
                else "No DNS resolver certificates found in ACME storage")
        end
    end.
Proof.
  destruct store as [|e|acme_data]; [reflexivity | reflexivity |].
  cbn [store_expected]. unfold expected_shape. intros H.
  destruct (truthy acme_data) eqn:T.
  - cbn [negb orb] in H.
    destruct acme_data as [| |z|f|s|l|items]; try discriminate.
    + cbn [store_records has_dns_resolver].
      unfold check_certificates_exist_and_valid. rewrite T.
      cbn [negb py_in mbind result_bind].
      destruct (contains "dns" s); [discriminate | reflexivity].
    + cbn [store_records has_dns_resolver].
      unfold check_certificates_exist_and_valid. rewrite T.
      cbn [negb py_in mbind result_bind].
      destruct (existsb _ l); [discriminate | reflexivity].
    + unfold check_certificates_exist_and_valid. rewrite T.
      cbn [negb py_in py_get mbind result_bind store_records
             has_dns_resolver].
      destruct (dict_lookup items "dns") as [[| | | | |l|dns_items]|];
        try discriminate; [|reflexivity].
      simpl bool_decide. cbn [negb from_option id py_get mbind result_bind].
      destruct (dict_lookup dns_items "Certificates") as [v|];
        [|reflexivity].
      cbn [from_option id].
      destruct v as [| | | | |certs|o]; cbn [truthy negb] in H |- *;
        try (destruct (truthy _) eqn:Tv in H; [discriminate|];
             try rewrite Tv; reflexivity);
        try reflexivity.
      * destruct b; [discriminate | reflexivity].
      * destruct (z =? 0)%Z; [reflexivity | discriminate].
      * destruct f; try discriminate; reflexivity.
      * destruct s; [reflexivity | discriminate].
      * destruct certs as [|c cs]; [reflexivity|].
        rewrite H. cbn [mbind result_bind].
        rewrite (check_domains_records _ _ _ _ H). reflexivity.
      * destruct o; [reflexivity | discriminate].
  - unfold check_certificates_exist_and_valid. rewrite T.
    cbn [negb mbind result_bind].
    destruct acme_data as [| |z|f|s|l|items]; try reflexivity.
    destruct items; [reflexivity | discriminate].
Qed.

Lemma length_letters (n : nat) : String.length (letters n) = n.
Proof. induction n as [|n IH]; simpl; congruence. Qed.

Lemma unmatched_label (certs : list json) (domain : string) (cert : json) :
  (longest_label certs < String.length domain)%nat ->
  In cert certs ->
  cert_matches (main_label cert) domain = false.
Proof.
  intros Hlen Hin. unfold cert_matches.
  assert (Hc : forall label, main_label cert = JStr label ->
                 (String.length label < String.length domain)%nat).
  { intros label E. revert Hlen Hin.
    induction certs as [|c cs IH]; [intros _ []|].
    cbn [longest_label]. intros Hlen Hin.
    apply Nat.max_lub_lt_iff in Hlen as [Hc Hcs].
    destruct Hin as [-> | Hin].
    - rewrite E in Hc. exact Hc.
    - apply IH; [exact Hcs | exact Hin]. }
  destruct (main_label cert) as [| | | |label| |]; try reflexivity.
  specialize (Hc label eq_refl). cbn [py_eq_str].
  apply orb_false_iff. split; apply String.eqb_neq; intros ->.
  - exact (Nat.lt_irrefl _ Hc).
  - cbn [String.append String.length] in Hc.
    apply Nat.lt_succ_l, Nat.lt_succ_l in Hc.
    exact (Nat.lt_irrefl _ Hc).
Qed.

Lemma malformed_record_raises (cert : json) :
  record_ok cert = false ->
  exists e,
    (py_get cert "domain" (JObj []) ≫= fun d => py_get d "main" (JStr ""))
    = Raise e
    /\ attribute_or_type_error e = true.
Proof.
  destruct cert as [| |z|f|s|l|items]; simpl;
    try (intros _; eexists; split; reflexivity).
  destruct (dict_lookup items "domain") as [[| |z|f|s|l|d]|]; simpl;
    try discriminate; intros _; eexists; split; reflexivity.
Qed.

Lemma scan_certificates_malformed (certs : list json) (domain : string)
    (messages : list string) :
  forallb record_ok certs = false ->
  (forall cert, In cert certs -> cert_matches (main_label cert) domain = false) ->
  exists e,
    scan_certificates certs domain messages = Raise e
    /\ attribute_or_type_error e = true.
Proof.
  induction certs as [|cert certs IH]; [discriminate|].
  cbn [forallb scan_certificates]. intros H Hno.
  destruct (record_ok cert) eqn:R.
  - pose proof (record_label cert R) as E.
    destruct (py_get cert "domain" (JObj [])) as [d|e]; simpl in E;
      [|discriminate].
    cbn [mbind result_bind]. rewrite E. cbn [mbind result_bind].
    rewrite (Hno cert (or_introl eq_refl)).
    apply IH; [exact H|]. intros c Hin. apply Hno. right. exact Hin.
  - destruct (malformed_record_raises cert R) as (e & E & He).
    exists e. split; [|exact He].
    destruct (py_get cert "domain" (JObj [])) as [d|e']; simpl in E.
    + cbn [mbind result_bind]. rewrite E. reflexivity.
    + cbn [mbind result_bind]. injection E as ->. reflexivity.
Qed.

Lemma unexpected_store_raises (acme_data : json)
    (acme_storage_path : string) :
  expected_shape acme_data = false ->
  exists domain e,
    check_certificates_exist_and_valid (StoreParsed acme_data)
      acme_storage_path [domain] = Raise e
    /\ attribute_or_type_error e = true.
Proof.
  unfold expected_shape. intros H.
  apply orb_false_iff in H as [T H]. apply negb_false_iff in T.
  unfold check_certificates_exist_and_valid. rewrite T. cbn [negb].
  destruct acme_data as [|b|z|f|s|l|items];
    try (exists "example.com"; eexists; split; reflexivity).
  - apply negb_false_iff in H. cbn [py_in mbind result_bind].
    rewrite H. exists "example.com". eexists. split; reflexivity.
  - apply negb_false_iff in H. cbn [py_in mbind result_bind].
    rewrite H. exists "example.com". eexists. split; reflexivity.
  - cbn [py_in py_get mbind result_bind].
    destruct (dict_lookup items "dns") as [v|]; [|discriminate].
    simpl bool_decide. cbn [negb from_option id].
    destruct v as [|b|z|f|s|l|dns_items];
      try (exists "example.com"; eexists; split; reflexivity).
    cbn [py_get mbind result_bind].
    destruct (dict_lookup dns_items "Certificates") as [v|]; [|discriminate].
    cbn [from_option id].
    destruct v as [|b|z|f|s|certs|o]; try discriminate.
    + apply negb_false_iff in H. rewrite H.
      exists "example.com". eexists. split; reflexivity.
    + apply negb_false_iff in H. rewrite H.
      exists "example.com". eexists. split; reflexivity.
    + apply negb_false_iff in H. rewrite H.
      exists "example.com". eexists. split; reflexivity.
    + apply negb_false_iff in H. rewrite H.
      destruct s as [|c s]; [discriminate|].
      exists "example.com". eexists. split; reflexivity.
    + destruct certs as [|c cs]; [discriminate|].
      destruct (scan_certificates_malformed (c :: cs)
                  (unmatched_domain (c :: cs)) [] H) as (e & E & He).
      { intros cert Hin. apply (unmatched_label (c :: cs)); [|exact Hin].
        unfold unmatched_domain. rewrite length_letters. lia. }
      exists (unmatched_domain (c :: cs)), e. split; [|exact He].
      cbn [truthy negb check_domains check_domain py_iter mbind result_bind].
      rewrite E. reflexivity.
    + apply negb_false_iff in H. rewrite H.
      destruct o as [|[k v] o]; [discriminate|].
      exists "example.com". eexists. split; reflexivity.
Qed.

(** C4, as the code has it.  A missing store, an unreadable or unparsable
    one, and a decoded store of an expected shape (falsy, a container
    without ["dns"], or an object whose [dns] entry is an object with
    [Certificates] absent, falsy or a list of records) all make the
    function return a pair, for every list of domains.  The missing and
    the unreadable store give [False] with their own reason; a decoded
    store of an expected shape that is not a well-formed store gives
    [False], with the no-certificates reason when it names a [dns]
    resolver and the no-resolver reason otherwise; a well-formed store
    gives the verdict and status of the per-domain scan.  Every other
    decoded store makes the function raise [AttributeError] or
    [TypeError] for some requested domain. *)
Theorem C4_expected_store_returns (store : store_file)
    (acme_storage_path : string) (domains : list string) :
  (store_expected store = true ->
   check_certificates_exist_and_valid store acme_storage_path domains
   = match store with
     | StoreMissing =>
         Ok (false, "ACME storage file not found at " +:+ acme_storage_path)
     | StoreUnreadable e =>
         Ok (false, "Failed to read ACME storage: " +:+ exn_str e)
     | StoreParsed acme_data =>
         match store_records acme_data with
         | Some certs =>
             Ok (forallb (satisfied certs) domains,
                 join "; " (map (domain_message certs) domains))
         | None =>
             Ok (false,
                 if has_dns_resolver acme_data
                 then "No certificates found in DNS resolver storage"
                 else "No DNS resolver certificates found in ACME storage")
         end
     end)
  /\ (store_expected store = false ->
      exists domain e,
        check_certificates_exist_and_valid store acme_storage_path [domain]
          = Raise e
        /\ attribute_or_type_error e = true).
Proof.
  split; [apply expected_store_result|].
  destruct store as [|e|acme_data]; try discriminate.
  apply unexpected_store_raises.
Qed.

Lemma C4_expected_store_witness :
  check_certificates_exist_and_valid
    (StoreParsed (JArr [JStr "acme"])) "/data/acme-dns.json" ["example.com"]
  = Ok (false, "No DNS resolver certificates found in ACME storage")
  /\ check_certificates_exist_and_valid
       (StoreParsed (JObj [("dns", JObj [("Certificates", JNull)])]))
       "/data/acme-dns.json" ["example.com"]
     = Ok (false, "No certificates found in DNS resolver storage")
  /\ check_certificates_exist_and_valid
       (StoreParsed (JObj [("http", JObj [("Certificates", JArr [])])]))
       "/data/acme-dns.json" ["example.com"]
     = Ok (false, "No DNS resolver certificates found in ACME storage").
Proof.
  split; [|split].
  - exact (proj1 (C4_expected_store_returns (StoreParsed (JArr [JStr "acme"]))
                    "/data/acme-dns.json" ["example.com"]) eq_refl).
  - exact (proj1 (C4_expected_store_returns
                    (StoreParsed (JObj [("dns", JObj [("Certificates", JNull)])]))
                    "/data/acme-dns.json" ["example.com"]) eq_refl).
  - exact (proj1 (C4_expected_store_returns
                    (StoreParsed
                       (JObj [("http", JObj [("Certificates", JArr [])])]))
                    "/data/acme-dns.json" ["example.com"]) eq_refl).
Defined.

(** C4 as stated fails: a record whose [domain] entry is a string, and a
    top-level array holding the string ["dns"], each make the function
    raise [AttributeError], which nothing catches. *)
Lemma C4_counterexample :
  check_certificates_exist_and_valid
    (StoreParsed (store_with [flat_record])) "/data/acme-dns.json"
    ["example.com"]
  = Raise (AttributeError "'str' object has no attribute 'get'")
  /\ check_certificates_exist_and_valid
       (StoreParsed (JArr [JStr "dns"])) "/data/acme-dns.json"
       ["example.com"]
     = Raise (AttributeError "'list' object has no attribute 'get'")
  /\ main (world_of ["LE_CHALLENGE=dns"; "LE_DNS_PROVIDER=cloudflare";
                     "DOMAIN=example.com"]
                    (StoreParsed (store_with [flat_record])))
     = ([Log INFO "DNS-01 challenge with Cloudflare provider detected";
         Log INFO "Checking certificates for domains: example.com";
         Called CertCheck],
        Uncaught (AttributeError "'str' object has no attribute 'get'")).
Proof. repeat split; vm_compute; reflexivity. Qed.

(** *** The expired branch is dead *)

Lemma scan_certificates_flags (certs : list json) (domain : string)
    (messages : list string) (found valid : bool) (messages' : list string) :
  scan_certificates certs domain messages = Ok (found, valid, messages') ->
  valid = found
  /\ messages' = if found then messages ++ [msg_found domain] else messages.
Proof.
  induction certs as [|cert certs IH]; simpl.
  - intros [= <- <- <-]. split; reflexivity.
  - destruct (py_get cert "domain" (JObj [])) as [d|e]; simpl;
      [|discriminate].
    destruct (py_get d "main" (JStr "")) as [cert_domain|e]; simpl;
      [|discriminate].
    destruct (cert_matches cert_domain domain).
    + intros [= <- <- <-]. split; reflexivity.
    + exact IH.
Qed.

Lemma check_domain_outcome (certificates : json) (domain : string)
    (st st' : bool * list string) :
  check_domain certificates domain st = Ok st' ->
  exists message, outcome_of domain message /\ st'.2 = st.2 ++ [message].
Proof.
  destruct st as [all_valid messages]. unfold check_domain.
  destruct (py_iter certificates) as [certs|e]; simpl; [|discriminate].
  destruct (scan_certificates certs domain messages)
    as [[[found valid] messages']|e] eqn:E; simpl; [|discriminate].
  destruct (scan_certificates_flags _ _ _ _ _ _ E) as [-> ->].
  destruct found; simpl; intros [= <-]; simpl.
  - exists (msg_found domain). split; [left|]; reflexivity.
  - exists (msg_not_found domain). split; [right|]; reflexivity.
Qed.

Lemma check_domains_outcomes (certificates : json) (domains : list string)
    (st st' : bool * list string) :
  check_domains certificates domains st = Ok st' ->
  exists outcomes,
    Forall2 outcome_of domains outcomes /\ st'.2 = st.2 ++ outcomes.
Proof.
  revert st. induction domains as [|d domains IH]; intros st; simpl.
  - intros [= <-]. exists []. split; [constructor | now rewrite app_nil_r].
  - destruct (check_domain certificates d st) as [st1|e] eqn:E; simpl;
      [|discriminate].
    intros H. destruct (IH _ H) as (outs & Hall & ->).
    destruct (check_domain_outcome _ _ _ _ E) as (m & Hm & ->).
    exists (m :: outs). split; [constructor; assumption|].
    rewrite <- app_assoc. reflexivity.
Qed.

Lemma startswith_cons (a b : ascii) (s p : string) :
  startswith (String a s) (String b p) = Ascii.eqb a b && startswith s p.
Proof. reflexivity. Qed.

Lemma contains_cons (p : string) (a : ascii) (s : string) :
  contains p (String a s) = startswith (String a s) p || contains p s.
Proof. reflexivity. Qed.

(** A needle cannot start inside a prefix that lacks its first
    character. *)
Lemma contains_skip_prefix (c : ascii) (r a b : string) :
  has_char c a = false ->
  contains (String c r) (a +:+ b) = contains (String c r) b.
Proof.
  induction a as [|x a IH]; [reflexivity|].
  cbn [has_char]. intros H. apply orb_false_iff in H as [Hx Ha].
  rewrite string_app_cons, contains_cons, startswith_cons, Hx.
  simpl. apply IH, Ha.
Qed.

Lemma ascii_eqb_sym (a b : ascii) : Ascii.eqb a b = Ascii.eqb b a.
Proof.
  destruct (Ascii.eqb_spec a b) as [->|H].
  - symmetry. apply Ascii.eqb_refl.
  - symmetry. apply Ascii.eqb_neq. congruence.
Qed.

Lemma startswith_before (c : ascii) (p x y : string) :
  has_char c p = false ->
  startswith (x +:+ String c y) p = startswith x p.
Proof.
  revert x. induction p as [|b p IH]; intros x; [reflexivity|].
  cbn [has_char]. intros H. apply orb_false_iff in H as [Hb Hp].
  destruct x as [|a x].
  - change ("" +:+ String c y) with (String c y).
    rewrite startswith_cons, ascii_eqb_sym, Hb. reflexivity.
  - rewrite string_app_cons, !startswith_cons, (IH _ Hp). reflexivity.
Qed.

(** A needle cannot straddle a character it does not contain. *)
Lemma contains_split_at (c : ascii) (p x y : string) :
  has_char c p = false ->
  contains p (x +:+ String c y) = contains p x || contains p y.
Proof.
  intros H. induction x as [|a x IH].
  - change ("" +:+ String c y) with (String c y).
    rewrite contains_cons.
    change (String c y) with ("" +:+ String c y) at 1.
    rewrite (startswith_before _ _ _ _ H).
    destruct p; reflexivity.
  - rewrite string_app_cons, !contains_cons, IH.
    change (String a (x +:+ String c y)) with (String a x +:+ String c y).
    rewrite (startswith_before _ _ _ _ H). apply orb_assoc.
Qed.

Lemma contains_outcome (domain message : string) :
  outcome_of domain message ->
  contains expired_text message = contains expired_text domain.
Proof.
  intros [-> | ->]; unfold msg_found, msg_not_found, expired_text;
    apply contains_skip_prefix; reflexivity.
Qed.

Lemma contains_joined_outcomes (domains outcomes : list string) :
  Forall2 outcome_of domains outcomes ->
  contains expired_text (join "; " outcomes) = true ->
  exists domain, In domain domains /\ contains expired_text domain = true.
Proof.
  induction 1 as [|d m domains outs Hm Hall IH]; [discriminate|].
  destruct outs as [|m' outs].
  - simpl. rewrite (contains_outcome _ _ Hm). intros H.
    exists d. split; [left; reflexivity | exact H].
  - change (join "; " (m :: m' :: outs))
      with (m +:+ String ";" (" " +:+ join "; " (m' :: outs))).
    rewrite contains_split_at by reflexivity.
    rewrite (contains_outcome _ _ Hm).
    unfold expired_text at 2.
    rewrite contains_skip_prefix by reflexivity.
    intros H. apply orb_true_iff in H as [H | H].
    + exists d. split; [left; reflexivity | exact H].
    + destruct (IH H) as (d' & Hin & Hd').
      exists d'. split; [right; exact Hin | exact Hd'].
Qed.

Lemma check_returns_cases (acme_data : json) (acme_storage_path : string)
    (domains : list string) (all_valid : bool) (status : string) :
  check_certificates_exist_and_valid (StoreParsed acme_data)
    acme_storage_path domains = Ok (all_valid, status) ->
  status = no_dns_status
  \/ status = no_certificates_status
  \/ exists outcomes,
       Forall2 outcome_of domains outcomes /\ status = join "; " outcomes.
Proof.
  unfold check_certificates_exist_and_valid.
  destruct (if negb (truthy acme_data) then Ok false
            else py_in "dns" acme_data) as [has_dns|e]; simpl;
    [|discriminate].
  destruct has_dns; simpl; [|intros [= _ <-]; left; reflexivity].
  destruct (py_get acme_data "dns" (JObj [])) as [dns_data|e]; simpl;
    [|discriminate].
  destruct (py_get dns_data "Certificates" (JArr [])) as [certificates|e];
    simpl; [|discriminate].
  destruct (truthy certificates); simpl;
    [|intros [= _ <-]; right; left; reflexivity].
  destruct (check_domains certificates domains (true, []))
    as [[av messages]|e] eqn:E; simpl; [|discriminate].
  intros [= _ <-]. right; right.
  destruct (check_domains_outcomes _ _ _ _ E) as (outs & Hall & Hm).
  simpl in Hm. subst messages. exists outs. split; [exact Hall | reflexivity].
Qed.

(** C9, as the code has it.  The inner loop always leaves [valid] equal to
    [found]; so a round of the outer loop appends either the found message
    or the not-found message and never the expired one; a status built by
    the loop is such messages joined with ["; "]; and the words "may be
    expired" occur in a returned status only when they were brought in
    from outside: by a requested domain, by the storage path (in the
    status for a missing file), or by the text of the read error (in the
    status for an unreadable file). *)
Theorem C9_expired_branch_dead :
  (forall (certs : list json) (domain : string) (messages : list string)
          (found valid : bool) (messages' : list string),
     scan_certificates certs domain messages = Ok (found, valid, messages') ->
     valid = found)
  /\ (forall (certificates : json) (domain : string)
             (st st' : bool * list string),
        check_domain certificates domain st = Ok st' ->
        st'.2 = st.2 ++ [msg_found domain]
        \/ st'.2 = st.2 ++ [msg_not_found domain])
  /\ (forall (acme_data : json) (acme_storage_path : string)
             (domains : list string) (all_valid : bool) (status : string),
        check_certificates_exist_and_valid (StoreParsed acme_data)
          acme_storage_path domains = Ok (all_valid, status) ->
        status = no_dns_status
        \/ status = no_certificates_status
        \/ exists outcomes,
             Forall2 outcome_of domains outcomes
             /\ status = join "; " outcomes)
  /\ (forall (store : store_file) (acme_storage_path : string)
             (domains : list string) (all_valid : bool) (status : string),
        check_certificates_exist_and_valid store acme_storage_path domains
          = Ok (all_valid, status) ->
        contains "may be expired" status = true ->
        (exists domain,
           In domain domains /\ contains "may be expired" domain = true)
        \/ (store = StoreMissing
            /\ contains "may be expired" acme_storage_path = true)
        \/ (exists e, store = StoreUnreadable e
                      /\ contains "may be expired" (exn_str e) = true)).
Proof.
  split; [|split; [|split]].
  - intros certs domain messages found valid messages' H.
    apply (scan_certificates_flags _ _ _ _ _ _ H).
  - intros certificates domain st st' H.
    destruct (check_domain_outcome _ _ _ _ H) as (m & [-> | ->] & E);
      [left | right]; exact E.
  - intros acme_data path domains all_valid status H.
    apply (check_returns_cases _ _ _ _ _ H).
  - intros [|e|acme_data] path domains all_valid status H.
    + cbn [check_certificates_exist_and_valid] in H. injection H as _ <-.
      rewrite contains_skip_prefix by reflexivity.
      intros Hc. right; left. split; [reflexivity | exact Hc].
    + cbn [check_certificates_exist_and_valid] in H. injection H as _ <-.
      rewrite contains_skip_prefix by reflexivity.
      intros Hc. right; right. exists e. split; [reflexivity | exact Hc].
    + intros Hc. left.
      destruct (check_returns_cases _ _ _ _ _ H)
        as [-> | [-> | (outs & Hall & ->)]].
      * vm_compute in Hc. discriminate.
      * vm_compute in Hc. discriminate.
      * apply (contains_joined_outcomes _ _ Hall Hc).
Qed.

(** C9 as stated fails in its last clause: a requested domain is copied
    into its message, so a domain that contains the words brings them into
    the status. *)
Lemma C9_counterexample :
  check_certificates_exist_and_valid
    (StoreParsed (store_with [cert_record "example.com"]))
    "/data/acme-dns.json" ["may be expired"]
  = Ok (false, "No certificate found for may be expired")
  /\ contains "may be expired" "No certificate found for may be expired"
     = true.
Proof. split; vm_compute; reflexivity. Qed.

(* ===================================================================== *)
(** ** Properties of the API probe *)
(* ===================================================================== *)

Lemma split_nonempty (sep : ascii) (s : string) : split sep s <> [].
Proof.
  induction s as [|c s IH]; simpl; [discriminate|].
  destruct (Ascii.eqb c sep); [discriminate|].
  destruct (split sep s); discriminate.
Qed.

Lemma split_label (label : string) :
  dot_free label = true -> split "." label = [label].
Proof.
  unfold dot_free. induction label as [|c label IH]; simpl; [reflexivity|].
  intros H. apply negb_true_iff, orb_false_iff in H as [Hc Hl].
  rewrite Hc, IH by (now rewrite Hl). reflexivity.
Qed.

Lemma split_label_dot (label rest : string) :
  dot_free label = true ->
  split "." (label +:+ String "." rest) = label :: split "." rest.
Proof.
  unfold dot_free. induction label as [|c label IH].
  - intros _. reflexivity.
  - cbn [has_char]. intros H.
    apply negb_true_iff, orb_false_iff in H as [Hc Hl].
    rewrite string_app_cons. cbn [split].
    rewrite Hc, IH by (now rewrite Hl). reflexivity.
Qed.

(** Splitting a dotted sequence of dot-free labels gives the labels
    back. *)
Lemma split_join (labels : list string) :
  labels <> [] ->
  forallb dot_free labels = true ->
  split "." (join "." labels) = labels.
Proof.
  induction labels as [|w ws IH]; [congruence|].
  intros _ H. cbn [forallb] in H. apply andb_true_iff in H as [Hw Hws].
  destruct ws as [|w' ws].
  - apply split_label, Hw.
  - change (join "." (w :: w' :: ws))
      with (w +:+ String "." (join "." (w' :: ws))).
    rewrite (split_label_dot _ _ Hw), IH; [reflexivity | discriminate | exact Hws].
Qed.

Lemma split_dot_free (s : string) : forallb dot_free (split "." s) = true.
Proof.
  induction s as [|c s IH]; [reflexivity|].
  cbn [split]. destruct (Ascii.eqb c ".") eqn:Hc.
  - cbn [forallb]. rewrite IH. reflexivity.
  - destruct (split "." s) as [|w ws]; cbn [forallb] in *.
    + unfold dot_free. simpl. rewrite Hc. reflexivity.
    + apply andb_true_iff in IH as [Hw Hws]. rewrite Hws, andb_true_r.
      unfold dot_free in *. cbn [has_char]. rewrite Hc. exact Hw.
Qed.

(** Every string is the dotted sequence of its labels. *)
Lemma join_split (s : string) : join "." (split "." s) = s.
Proof.
  induction s as [|c s IH]; [reflexivity|].
  cbn [split]. destruct (Ascii.eqb_spec c ".") as [->|Hc].
  - pose proof (split_nonempty "." s) as Hne.
    destruct (split "." s) as [|w ws]; [congruence|].
    change (join "." ("" :: w :: ws)) with (String "." (join "." (w :: ws))).
    rewrite IH. reflexivity.
  - pose proof (split_nonempty "." s) as Hne.
    destruct (split "." s) as [|w ws]; [congruence|].
    destruct ws as [|w' ws].
    + simpl in *. congruence.
    + change (join "." (String c w :: w' :: ws))
        with (String c (join "." (w :: w' :: ws))).
      rewrite IH. reflexivity.
Qed.

(** C5.  Every domain is a dotted sequence of dot-free labels, and those
    labels are what the split yields.  With more than two labels the base
    candidate is the last two joined by a dot; otherwise it is the domain
    itself.  [app.example.com] and [example.com] give [example.com];
    [app.example.co.uk] gives [co.uk]. *)
Theorem C5_base_domain :
  (forall domain : string,
     forallb dot_free (split "." domain) = true
     /\ join "." (split "." domain) = domain)
  /\ (forall labels : list string,
        labels <> [] ->
        forallb dot_free labels = true ->
        base_domain_of (join "." labels)
        = if (2 <? List.length labels)%nat
          then join "." (last_two labels)
          else join "." labels)
  /\ base_domain_of "app.example.com" = "example.com"
  /\ base_domain_of "example.com" = "example.com"
  /\ base_domain_of "app.example.co.uk" = "co.uk".
Proof.
  split; [|split; [|repeat split]].
  - intros domain. split; [apply split_dot_free | apply join_split].
  - intros labels Hne Hfree. unfold base_domain_of.
    rewrite (split_join _ Hne Hfree). reflexivity.
Qed.

Lemma startswith_app (p b : string) : startswith (p +:+ b) p = true.
Proof.
  induction p as [|c p IH]; [reflexivity|].
  rewrite string_app_cons, startswith_cons, Ascii.eqb_refl. exact IH.
Qed.

Lemma startswith_app_l (a b p : string) :
  startswith a p = true -> startswith (a +:+ b) p = true.
Proof.
  revert a. induction p as [|c p IH]; intros a; [reflexivity|].
  destruct a as [|x a]; [discriminate|].
  rewrite string_app_cons, !startswith_cons.
  intros H. apply andb_true_iff in H as [Hx Ha].
  rewrite Hx, (IH _ Ha). reflexivity.
Qed.

Lemma contains_here (p b : string) : contains p (p +:+ b) = true.
Proof.
  destruct (p +:+ b) eqn:E; simpl; rewrite <- E, startswith_app; reflexivity.
Qed.

Lemma contains_refl (p : string) : contains p p = true.
Proof.
  rewrite <- (string_app_nil_r p) at 2. apply contains_here.
Qed.

Lemma contains_app_r (p a b : string) :
  contains p b = true -> contains p (a +:+ b) = true.
Proof.
  intros H. induction a as [|x a IH]; [exact H|].
  rewrite string_app_cons, contains_cons, IH. apply orb_true_r.
Qed.

Lemma contains_app_l (p a b : string) :
  contains p a = true -> contains p (a +:+ b) = true.
Proof.
  induction a as [|x a IH].
  - simpl. rewrite orb_false_r. intros H.
    destruct p; [|discriminate]. destruct b; reflexivity.
  - rewrite string_app_cons, !contains_cons. intros H.
    apply orb_true_iff in H as [H | H].
    + change (String x (a +:+ b)) with (String x a +:+ b).
      rewrite (startswith_app_l _ _ _ H). reflexivity.
    + rewrite (IH H). apply orb_true_r.
Qed.

Lemma contains_concat (x : string) (l : list string) :
  In x l -> contains x (String.concat "" l) = true.
Proof.
  induction l as [|y l IH]; [intros []|].
  intros [-> | H].
  - destruct l as [|z l].
    + change (String.concat "" [x]) with x. apply contains_refl.
    + change (String.concat "" (x :: z :: l))
        with (x +:+ "" +:+ String.concat "" (z :: l)).
      apply contains_here.
  - destruct l as [|z l]; [destruct H|].
    change (String.concat "" (y :: z :: l))
      with (y +:+ "" +:+ String.concat "" (z :: l)).
    apply contains_app_r. change ("" +:+ String.concat "" (z :: l))
      with (String.concat "" (z :: l)). apply IH, H.
Qed.

Lemma zone_get_name (zone : json) :
  is_zone zone = true ->
  py_get zone "name" (JStr "") = Ok (zone_name zone)
  /\ py_get zone "id" JNull = Ok (zone_id zone)
  /\ truthy zone = true.
Proof.
  destruct zone as [| | | | |l|items]; simpl; try discriminate.
  intros H. repeat split.
  destruct items; [discriminate | reflexivity].
Qed.

Lemma find_zone_zones (zones : list json) (domain base_domain : string)
    (accessible_zones : list json) :
  forallb is_zone zones = true ->
  exists names,
    find_zone zones domain base_domain accessible_zones
    = Ok (List.find (fun zone =>
                       zone_matches (zone_name zone) domain base_domain)
                    zones, names)
    /\ (List.find (fun zone =>
                     zone_matches (zone_name zone) domain base_domain)
                  zones = None ->
        names = accessible_zones ++ map zone_name zones).
Proof.
  revert accessible_zones.
  induction zones as [|zone zones IH]; intros accessible_zones; simpl.
  - intros _. eexists. split; [reflexivity|].
    intros _. now rewrite app_nil_r.
  - intros H. apply andb_true_iff in H as [Hz Hzs].
    destruct (zone_get_name _ Hz) as (-> & _ & _). simpl.
    destruct (zone_matches (zone_name zone) domain base_domain).
    + eexists. split; [reflexivity | discriminate].
    + destruct (IH (accessible_zones ++ [zone_name zone]) Hzs)
        as (names & E & Hn).
      exists names. split; [exact E|].
      intros Hnone. rewrite (Hn Hnone), <- app_assoc. reflexivity.
Qed.

Lemma zone_line_listed (repr_other : json -> string)
    (domain base_domain : string) (names : list json) (name : json) :
  In name names ->
  contains (zone_line repr_other name)
    (zone_not_found_msg repr_other domain base_domain names) = true.
Proof.
  intros H. unfold zone_not_found_msg.
  do 9 apply contains_app_r. apply contains_app_l, contains_concat.
  apply in_map, H.
Qed.

Lemma select_zone_zones (repr_other : json -> string) (data : json)
    (zones : list json) (domain : string) :
  zones_response data zones ->
  forallb is_zone zones = true ->
  select_zone repr_other data domain (base_domain_of domain)
  = match zones with
    | [] => Ok (inl (probe_failure no_zones_error))
    | _ :: _ =>
        match List.find (zone_selected domain) zones with
        | Some zone => Ok (inr zone)
        | None =>
            Ok (inl (probe_failure
                       (zone_not_found_msg repr_other domain
                          (base_domain_of domain) (map zone_name zones))))
        end
    end.
Proof.
  intros (items & success & -> & Es & Ts & Er) Hz.
  unfold select_zone. simpl. rewrite Es. simpl. rewrite Ts. simpl.
  rewrite Er. simpl.
  destruct zones as [|z zs]; [reflexivity|]. simpl negb. cbv iota.
  cbn [py_iter mbind result_bind].
  destruct (find_zone_zones (z :: zs) domain (base_domain_of domain) [] Hz)
    as (names & E & Hn).
  rewrite E. cbn [mbind result_bind].
  fold (zone_selected domain).
  change (fun zone => zone_matches (zone_name zone) domain
                        (base_domain_of domain))
    with (zone_selected domain) in *.
  destruct (List.find (zone_selected domain) (z :: zs)) as [zone|] eqn:F.
  - apply find_some in F as [Hin _].
    assert (Hzone : is_zone zone = true).
    { rewrite forallb_forall in Hz. apply Hz, Hin. }
    destruct (zone_get_name _ Hzone) as (_ & _ & ->). reflexivity.
  - rewrite (Hn eq_refl). reflexivity.
Qed.

Lemma zone_selected_spec (domain : string) (zone : json) :
  zone_selected domain zone = true <-> names_zone domain zone.
Proof.
  unfold zone_selected, zone_matches, names_zone.
  rewrite orb_true_iff, !py_eq_str_spec. reflexivity.
Qed.

Lemma find_first_named (domain : string) (before after : list json)
    (zone : json) :
  names_zone domain zone ->
  (forall earlier, In earlier before -> ~ names_zone domain earlier) ->
  List.find (zone_selected domain) (before ++ zone :: after) = Some zone.
Proof.
  intros Hz. induction before as [|b before IH]; intros Hb; simpl.
  - apply zone_selected_spec in Hz. rewrite Hz. reflexivity.
  - destruct (zone_selected domain b) eqn:E.
    + apply zone_selected_spec in E. destruct (Hb b); [left; reflexivity|exact E].
    + apply IH. intros earlier Hin. apply Hb. right. exact Hin.
Qed.

Lemma find_none_named (domain : string) (zones : list json) :
  (forall zone, In zone zones -> ~ names_zone domain zone) ->
  List.find (zone_selected domain) zones = None.
Proof.
  induction zones as [|z zones IH]; intros H; simpl; [reflexivity|].
  destruct (zone_selected domain z) eqn:E.
  - apply zone_selected_spec in E. destruct (H z); [left; reflexivity|exact E].
  - apply IH. intros zone Hin. apply H. right. exact Hin.
Qed.

Lemma startswith_app_both (a s p : string) :
  startswith s p = true -> startswith (a +:+ s) (a +:+ p) = true.
Proof.
  intros H. induction a as [|c a IH]; [exact H|].
  rewrite !string_app_cons. simpl. rewrite Ascii.eqb_refl. exact IH.
Qed.

Lemma contains_of_startswith (p s : string) :
  startswith s p = true -> contains p s = true.
Proof.
  intros H. destruct s as [|c s].
  - destruct p; [reflexivity | discriminate].
  - rewrite contains_cons, H. reflexivity.
Qed.

Lemma zone_lines_of_names (repr_other : json -> string)
    (names : list string) :
  String.concat "" (map (zone_line repr_other) (map JStr names))
  = String.concat "" (map (fun name => "  - " +:+ name +:+ nl) names).
Proof.
  rewrite map_map. reflexivity.
Qed.

(** C6.  For a successful list-zones response whose zones are objects
    with a name: an empty list makes the probe fail with the no-zones
    error after the one request; otherwise the zone selected is the first
    one, in response order, whose name is the requested domain or its
    base-domain candidate, and the second request is sent for that zone's
    id; when no zone has such a name, the probe fails after the one
    request with a message that begins by naming the domain and its
    candidate and that holds, under "Zones accessible with this token:",
    one line "  - <name>" for every zone returned, in response order. *)
Theorem C6_zone_selection (repr_other : json -> string)
    (network : string -> string -> result json)
    (api_token domain : string) (data : json) (zones : list json) :
  network list_zones_url api_token = Ok data ->
  zones_response data zones ->
  forallb is_zone zones = true ->
  (zones = [] ->
     test_cloudflare_api_connectivity repr_other network api_token domain
     = ([UrlOpen list_zones_url],
        probe_failure "API token has no access to any zones"))
  /\ (forall (before : list json) (zone : json) (after : list json),
        zones = before ++ zone :: after ->
        names_zone domain zone ->
        (forall earlier, In earlier before -> ~ names_zone domain earlier) ->
        select_zone repr_other data domain (base_domain_of domain)
          = Ok (inr zone)
        /\ (test_cloudflare_api_connectivity repr_other network api_token
              domain).1
           = [UrlOpen list_zones_url;
              UrlOpen (dns_records_url repr_other (zone_id zone))])
  /\ (zones <> [] ->
      (forall zone, In zone zones -> ~ names_zone domain zone) ->
      exists msg,
        test_cloudflare_api_connectivity repr_other network api_token domain
        = ([UrlOpen list_zones_url], probe_failure msg)
        /\ startswith msg
             ("Domain '" +:+ domain +:+ "' (base: '"
              +:+ base_domain_of domain
              +:+ "') not found in accessible zones.") = true
        /\ (forall zone name,
              In zone zones -> zone_name zone = JStr name ->
              contains ("  - " +:+ name +:+ nl) msg = true)
        /\ (forall names,
              map zone_name zones = map JStr names ->
              contains ("Zones accessible with this token:" +:+ nl
                        +:+ String.concat ""
                              (map (fun name => "  - " +:+ name +:+ nl) names)
                        +:+ nl +:+ "Possible causes:") msg = true)).
Proof.
  intros Hnet Hresp Hz.
  pose proof (select_zone_zones repr_other _ _ domain Hresp Hz) as Hsel.
  split; [|split].
  - intros ->. unfold test_cloudflare_api_connectivity, probe_try.
    rewrite Hnet, Hsel. reflexivity.
  - intros before zone after -> Hnamed Hfirst.
    pose proof (find_first_named domain before after zone Hnamed Hfirst) as F.
    assert (Hsel' : select_zone repr_other data domain (base_domain_of domain)
                    = Ok (inr zone)).
    { rewrite Hsel. destruct (before ++ zone :: after) as [|z zs];
        [discriminate|]. rewrite F. reflexivity. }
    split; [exact Hsel'|].
    unfold test_cloudflare_api_connectivity, probe_try.
    rewrite Hnet, Hsel'.
    assert (Hzone : is_zone zone = true).
    { rewrite forallb_forall in Hz. apply Hz, in_elt. }
    unfold check_dns_records.
    destruct (zone_get_name _ Hzone) as (_ & -> & _).
    destruct zone as [| | | | |l|items]; try discriminate.
    reflexivity.
  - intros Hne Hnone.
    pose proof (find_none_named domain zones Hnone) as F.
    exists (zone_not_found_msg repr_other domain (base_domain_of domain)
              (map zone_name zones)).
    split; [|split; [|split]].
    + unfold test_cloudflare_api_connectivity, probe_try.
      rewrite Hnet, Hsel. destruct zones as [|z zs]; [congruence|].
      rewrite F. reflexivity.
    + unfold zone_not_found_msg.
      do 4 apply startswith_app_both. apply startswith_app.
    + intros zone name Hin Hname.
      change ("  - " +:+ name +:+ nl) with (zone_line repr_other (JStr name)).
      rewrite <- Hname. apply zone_line_listed, in_map, Hin.
    + intros names Hnames. unfold zone_not_found_msg.
      rewrite Hnames, zone_lines_of_names.
      do 7 apply contains_app_r. apply contains_of_startswith.
      do 4 apply startswith_app_both. apply startswith_app.
Qed.

(** Three concrete responses: no zone named after the domain, with the
    whole message; the exact name met before the candidate; and the
    candidate met before the exact name. *)
Lemma C6_zone_selection_witness :
  test_cloudflare_api_connectivity plain_repr
    (serving [zone_record "z1" "other.com"; zone_record "z2" "example.org"])
    "token" "app.example.com"
  = ([UrlOpen list_zones_url],
     probe_failure
       ("Domain 'app.example.com' (base: 'example.com') not found in accessible zones."
        +:+ nl +:+ nl
        +:+ "Zones accessible with this token:" +:+ nl
        +:+ "  - other.com" +:+ nl
        +:+ "  - example.org" +:+ nl
        +:+ nl
        +:+ "Possible causes:" +:+ nl
        +:+ "  1. Domain is not added to your Cloudflare account" +:+ nl
        +:+ "  2. API token doesn't have permission for this zone" +:+ nl
        +:+ "  3. DOMAIN in .env doesn't match the Cloudflare zone name" +:+ nl
        +:+ nl
        +:+ "To fix:" +:+ nl
        +:+ "  1. Verify the domain is added to Cloudflare" +:+ nl
        +:+ "  2. Recreate the API token and include this zone" +:+ nl
        +:+ "  3. Update DOMAIN in .env to match a zone listed above"))
  /\ select_zone plain_repr
       (zones_reply [zone_record "z1" "other.com";
                     zone_record "z2" "app.example.com";
                     zone_record "z3" "example.com"])
       "app.example.com" "example.com"
     = Ok (inr (zone_record "z2" "app.example.com"))
  /\ select_zone plain_repr
       (zones_reply [zone_record "z1" "other.com";
                     zone_record "z2" "example.com";
                     zone_record "z3" "app.example.com"])
       "app.example.com" "example.com"
     = Ok (inr (zone_record "z2" "example.com")).
Proof.
  split; [|split].
  - destruct (proj2 (proj2
      (C6_zone_selection plain_repr
         (serving [zone_record "z1" "other.com";
                   zone_record "z2" "example.org"])
         "token" "app.example.com"
         (zones_reply [zone_record "z1" "other.com";
                       zone_record "z2" "example.org"])
         [zone_record "z1" "other.com"; zone_record "z2" "example.org"]
         eq_refl
         (ex_intro _ _ (ex_intro _ (JBool true)
            (conj eq_refl (conj eq_refl (conj eq_refl eq_refl)))))
         eq_refl)))
      as (msg & E & _ & _ & _).
    + discriminate.
    + intros zone [<- | [<- | []]] [H | H]; vm_compute in H; discriminate.
    + rewrite E. vm_compute in E. injection E as <-.
      vm_compute. reflexivity.
  - refine (proj1 (proj1 (proj2
      (C6_zone_selection plain_repr
         (serving [zone_record "z1" "other.com";
                   zone_record "z2" "app.example.com";
                   zone_record "z3" "example.com"])
         "token" "app.example.com"
         (zones_reply [zone_record "z1" "other.com";
                       zone_record "z2" "app.example.com";
                       zone_record "z3" "example.com"])
         [zone_record "z1" "other.com"; zone_record "z2" "app.example.com";
          zone_record "z3" "example.com"]
         eq_refl
         (ex_intro _ _ (ex_intro _ (JBool true)
            (conj eq_refl (conj eq_refl (conj eq_refl eq_refl)))))
         eq_refl))
      [zone_record "z1" "other.com"] (zone_record "z2" "app.example.com")
      [zone_record "z3" "example.com"] eq_refl _ _)).
    + left. reflexivity.
    + intros earlier [<- | []] [H | H]; vm_compute in H; discriminate.
  - refine (proj1 (proj1 (proj2
      (C6_zone_selection plain_repr
         (serving [zone_record "z1" "other.com";
                   zone_record "z2" "example.com";
                   zone_record "z3" "app.example.com"])
         "token" "app.example.com"
         (zones_reply [zone_record "z1" "other.com";
                       zone_record "z2" "example.com";
                       zone_record "z3" "app.example.com"])
         [zone_record "z1" "other.com"; zone_record "z2" "example.com";
          zone_record "z3" "app.example.com"]
         eq_refl
         (ex_intro _ _ (ex_intro _ (JBool true)
            (conj eq_refl (conj eq_refl (conj eq_refl eq_refl)))))
         eq_refl))
      [zone_record "z1" "other.com"] (zone_record "z2" "example.com")
      [zone_record "z3" "app.example.com"] eq_refl _ _)).
    + right. reflexivity.
    + intros earlier [<- | []] [H | H]; vm_compute in H; discriminate.
Defined.

(* ===================================================================== *)
(** ** Further properties of the API probe *)
(* ===================================================================== *)

Lemma take_length (n : nat) (s : string) :
  (String.length (take n s) <= n)%nat.
Proof.
  revert s. induction n as [|n IH]; intros s; simpl; [lia|].
  destruct s as [|c s]; simpl; [lia|]. specialize (IH s). lia.
Qed.

Lemma find_zone_some (zones : list json) (domain base_domain : string)
    (accessible_zones : list json) (zone : json) (names : list json) :
  find_zone zones domain base_domain accessible_zones
    = Ok (Some zone, names) ->
  exists name,
    py_get zone "name" (JStr "") = Ok name
    /\ zone_matches name domain base_domain = true.
Proof.
  revert accessible_zones.
  induction zones as [|z zones IH]; intros accessible_zones; simpl;
    [discriminate|].
  destruct (py_get z "name" (JStr "")) as [name|e] eqn:E; simpl;
    [|discriminate].
  destruct (zone_matches name domain base_domain) eqn:M.
  - intros [= <- _]. exists name. split; assumption.
  - apply IH.
Qed.

(** What [select_zone] can return: a failure with an error text, or a
    zone the loop stopped at. *)
Lemma select_zone_cases (repr_other : json -> string) (data : json)
    (domain base_domain : string) (r : probe_result + json) :
  select_zone repr_other data domain base_domain = Ok r ->
  (exists msg, r = inl (probe_failure msg))
  \/ (exists zone name,
        r = inr zone
        /\ py_get zone "name" (JStr "") = Ok name
        /\ zone_matches name domain base_domain = true).
Proof.
  unfold select_zone.
  destruct (py_get data "success" JNull) as [success|e]; simpl;
    [|discriminate].
  destruct (truthy success); simpl.
  - destruct (py_get data "result" (JArr [])) as [zones|e]; simpl;
      [|discriminate].
    destruct (truthy zones); simpl; [|intros [= <-]; left; eauto].
    destruct (py_iter zones) as [zs|e]; simpl; [|discriminate].
    destruct (find_zone zs domain base_domain [])
      as [[[zone|] names]|e] eqn:F; simpl; [| |discriminate].
    + destruct (truthy zone); intros [= <-]; [|left; eauto].
      right. destruct (find_zone_some _ _ _ _ _ _ F) as (name & E & M).
      exists zone, name. repeat split; assumption.
    + intros [= <-]. left. eauto.
  - destruct (py_get data "errors" (JArr [])) as [errors|e]; simpl;
      [|discriminate].
    destruct (py_iter errors) as [errs|e]; simpl; [|discriminate].
    destruct (error_msgs repr_other errs) as [msgs|e]; simpl;
      [|discriminate].
    intros [= <-]. left. eauto.
Qed.

(** What the second step can return and which request it sends. *)
Lemma check_dns_records_cases (repr_other : json -> string)
    (network : string -> string -> result json) (api_token : string)
    (domain_zone : json) :
  let '(evs, r) := check_dns_records repr_other network api_token domain_zone in
  ((evs = [] /\ exists e, r = Raise e)
   \/ exists zid, py_get domain_zone "id" JNull = Ok zid
                  /\ evs = [UrlOpen (dns_records_url repr_other zid)])
  /\ (forall res, r = Ok res ->
        coherent res = true
        /\ forall err zi, res = (true, err, Some zi) ->
             py_get domain_zone "name" JNull = Ok (zi_name zi)
             /\ py_get domain_zone "id" JNull = Ok (zi_id zi)).
Proof.
  unfold check_dns_records.
  destruct (py_get domain_zone "id" JNull) as [zid|e];
    [|split; [left; eauto | discriminate]].
  destruct (py_get domain_zone "name" JNull) as [zname|e];
    [|split; [left; eauto | discriminate]].
  split; [right; eauto|].
  intros res.
  destruct (network (dns_records_url repr_other zid) api_token)
    as [dns_data|[m|m|code reason body|reason|m]]; try discriminate.
  - destruct (py_get dns_data "success" JNull) as [success|e]; simpl;
      [|discriminate].
    destruct (truthy success); simpl.
    + destruct (py_get domain_zone "status" (JStr "unknown"))
        as [status|e]; simpl; [|discriminate].
      intros [= <-]. split; [reflexivity|].
      intros err zi [= _ <-]. split; reflexivity.
    + destruct (py_get dns_data "errors" (JArr [])) as [errors|e]; simpl;
        [|discriminate].
      destruct (py_iter errors) as [errs|e]; simpl; [|discriminate].
      destruct (error_msgs repr_other errs) as [msgs|e]; simpl;
        [|discriminate].
      intros [= <-]. split; [reflexivity | discriminate].
  - destruct (code =? 403)%Z; [|destruct body; [|discriminate]];
      intros [= <-]; (split; [reflexivity | discriminate]).
Qed.

Lemma handled_coherent (r : result probe_result) :
  (forall res, r = Ok res -> coherent res = true) ->
  coherent (handle_request_errors r) = true.
Proof.
  intros H. destruct r as [res|[m|m|code reason body|reason|m]];
    try reflexivity.
  - apply H. reflexivity.
  - cbn [handle_request_errors].
    destruct (code =? 403)%Z; [|destruct body]; reflexivity.
Qed.

Lemma handled_success (r : result probe_result) (err : option string)
    (zi : zone_info) :
  handle_request_errors r = (true, err, Some zi) ->
  r = Ok (true, err, Some zi).
Proof.
  destruct r as [res|[m|m|code reason body|reason|m]];
    cbn [handle_request_errors]; try discriminate.
  - intros ->. reflexivity.
  - destruct (code =? 403)%Z; [|destruct body]; discriminate.
Qed.

(** The probe step by step: what [probe_try] yields, by cases on the
    first answer and on the selection. *)
Lemma probe_try_cases (repr_other : json -> string)
    (network : string -> string -> result json) (api_token domain : string) :
  (exists r, probe_try repr_other network api_token domain
             = ([UrlOpen list_zones_url], r)
             /\ forall res, r = Ok res -> exists msg, res = probe_failure msg)
  \/ (exists data zone name,
        network list_zones_url api_token = Ok data
        /\ select_zone repr_other data domain (base_domain_of domain)
           = Ok (inr zone)
        /\ py_get zone "name" (JStr "") = Ok name
        /\ zone_matches name domain (base_domain_of domain) = true
        /\ probe_try repr_other network api_token domain
           = (UrlOpen list_zones_url
                :: (check_dns_records repr_other network api_token zone).1,
              (check_dns_records repr_other network api_token zone).2)).
Proof.
  unfold probe_try.
  destruct (network list_zones_url api_token) as [data|e] eqn:N.
  - destruct (select_zone repr_other data domain (base_domain_of domain))
      as [[failure|zone]|e] eqn:S.
    + left. eexists. split; [reflexivity|]. intros res [= <-].
      destruct (select_zone_cases _ _ _ _ _ S)
        as [(msg & [= ->]) | (z & n & [=] & _)]. eauto.
    + right. destruct (select_zone_cases _ _ _ _ _ S)
        as [(msg & [=]) | (z & n & [= <-] & E & M)].
      exists data, zone, n. repeat split; try assumption.
      destruct (check_dns_records repr_other network api_token zone);
        reflexivity.
    + left. eexists. split; [reflexivity | discriminate].
  - left. eexists. split; [reflexivity | discriminate].
Qed.

Lemma dns_records_url_endpoint (repr_other : json -> string) (zid : json) :
  startswith (dns_records_url repr_other zid) (zones_endpoint +:+ "/") = true
  /\ startswith (dns_records_url repr_other zid) zones_endpoint = true
  /\ dns_records_url repr_other zid <> list_zones_url.
Proof.
  assert (H : startswith (dns_records_url repr_other zid)
                (zones_endpoint +:+ "/") = true).
  { unfold dns_records_url. apply startswith_app. }
  split; [exact H|]. split.
  - unfold dns_records_url.
    change "https://api.cloudflare.com/client/v4/zones/"
      with (zones_endpoint +:+ "/").
    rewrite app_assoc_string. apply startswith_app.
  - intros E. rewrite E in H. vm_compute in H. discriminate.
Qed.

Lemma probe_coherent_result (repr_other : json -> string)
    (network : string -> string -> result json) (api_token domain : string) :
  coherent
    (test_cloudflare_api_connectivity repr_other network api_token domain).2
  = true.
Proof.
  unfold test_cloudflare_api_connectivity.
  destruct (probe_try_cases repr_other network api_token domain)
    as [(r & -> & Hr) | (data & zone & name & _ & _ & _ & _ & ->)].
  - cbn [snd]. apply handled_coherent.
    intros res E. destruct (Hr _ E) as (msg & ->). reflexivity.
  - pose proof (check_dns_records_cases repr_other network api_token zone)
      as H.
    destruct (check_dns_records repr_other network api_token zone)
      as [evs r]. destruct H as [_ H].
    cbn [fst snd]. apply handled_coherent.
    intros res E. apply (H _ E).
Qed.

Lemma probe_request_shape (repr_other : json -> string)
    (network : string -> string -> result json) (api_token domain : string) :
  let t :=
    (test_cloudflare_api_connectivity repr_other network api_token domain).1
  in
  (t = [UrlOpen list_zones_url]
   \/ exists zid,
        t = [UrlOpen list_zones_url;
             UrlOpen (dns_records_url repr_other zid)]
        /\ dns_records_url repr_other zid <> list_zones_url)
  /\ Forall (fun e => exists url,
                 e = UrlOpen url /\ startswith url zones_endpoint = true) t.
Proof.
  assert (Hl : exists url, UrlOpen list_zones_url = UrlOpen url
                           /\ startswith url zones_endpoint = true).
  { exists list_zones_url. split; reflexivity. }
  unfold test_cloudflare_api_connectivity.
  destruct (probe_try_cases repr_other network api_token domain)
    as [(r & -> & Hr) | (data & zone & name & _ & _ & _ & _ & ->)];
    cbn [fst].
  - split; [left; reflexivity|]. repeat constructor. exact Hl.
  - pose proof (check_dns_records_cases repr_other network api_token zone)
      as H.
    destruct (check_dns_records repr_other network api_token zone)
      as [evs r]. destruct H as [[[-> _] | (zid & _ & ->)] _]; cbn [fst].
    + split; [left; reflexivity|]. repeat constructor. exact Hl.
    + destruct (dns_records_url_endpoint repr_other zid) as (_ & Hs & Hne).
      split; [right; exists zid; split; [reflexivity | exact Hne]|].
      repeat constructor; [exact Hl|].
      exists (dns_records_url repr_other zid). split; [reflexivity | exact Hs].
Qed.






Lemma select_zone_object (repr_other : json -> string) (data zone : json)
    (domain base_domain : string) :
  select_zone repr_other data domain base_domain = Ok (inr zone) ->
  is_object zone = true.
Proof.
  intros S. destruct (select_zone_cases _ _ _ _ _ S)
    as [(msg & [=]) | (z & n & [= <-] & E & _)].
  destruct zone; try discriminate. reflexivity.
Qed.

(** A transport failure, at the first request or at the second, ends the
    probe with the network-labelled error; no request follows it. *)
Theorem transport_failure_reported (repr_other : json -> string)
    (network : string -> string -> result json)
    (api_token domain reason : string) :
  (network list_zones_url api_token = Raise (URLError reason) ->
   test_cloudflare_api_connectivity repr_other network api_token domain
   = ([UrlOpen list_zones_url], probe_failure ("Network error: " +:+ reason)))
  /\ (forall data zone : json,
        network list_zones_url api_token = Ok data ->
        select_zone repr_other data domain (base_domain_of domain)
          = Ok (inr zone) ->
        network (dns_records_url repr_other (zone_id zone)) api_token
          = Raise (URLError reason) ->
        test_cloudflare_api_connectivity repr_other network api_token domain
        = ([UrlOpen list_zones_url;
            UrlOpen (dns_records_url repr_other (zone_id zone))],
           probe_failure ("Network error: " +:+ reason))).
Proof.
  split.
  - intros N. unfold test_cloudflare_api_connectivity, probe_try.
    rewrite N. reflexivity.
  - intros data zone N S D.
    pose proof (select_zone_object _ _ _ _ _ S) as Hobj.
    unfold test_cloudflare_api_connectivity, probe_try.
    rewrite N, S. destruct zone as [| | | | |l|items]; try discriminate.
    unfold check_dns_records. cbn [py_get].
    change (from_option id JNull (dict_lookup items "id"))
      with (zone_id (JObj items)).
    rewrite D. reflexivity.
Qed.

Lemma take_prefix (n : nat) (s : string) : startswith s (take n s) = true.
Proof.
  revert s. induction n as [|n IH]; intros s; [reflexivity|].
  destruct s as [|c s]; [reflexivity|].
  cbn [take]. rewrite startswith_cons, Ascii.eqb_refl. apply IH.
Qed.

Lemma take_all (n : nat) (s : string) :
  (String.length s <= n)%nat -> take n s = s.
Proof.
  revert s. induction n as [|n IH]; intros s; destruct s as [|c s]; simpl;
    try reflexivity; try lia.
  intros H. rewrite IH by lia. reflexivity.
Qed.

(** An HTTP error on the first request ends the probe after that one
    request.  Status 403 gives the insufficient-permissions text without
    reading the body.  For any other status the body is read: when that
    succeeds the text holds the status, the reason and a prefix of the
    body of at most 200 characters (all of it when it is that short); when
    reading or decoding the body raises, the outermost handler answers
    "Unexpected error" with that exception's text. *)
Theorem http_failure_reported (repr_other : json -> string)
    (network : string -> string -> result json)
    (api_token domain : string) (code : Z) (reason : string)
    (body : http_body) :
  network list_zones_url api_token = Raise (HTTPError code reason body) ->
  exists msg,
    test_cloudflare_api_connectivity repr_other network api_token domain
    = ([UrlOpen list_zones_url], probe_failure msg)
    /\ (code = 403%Z -> msg = insufficient_permissions)
    /\ (code <> 403%Z ->
        match body with
        | BodyText text =>
            exists shown,
              msg = "HTTP " +:+ str_of_Z code +:+ ": " +:+ reason
                    +:+ ". " +:+ shown
              /\ (String.length shown <= 200)%nat
              /\ startswith text shown = true
              /\ ((String.length text <= 200)%nat -> shown = text)
        | BodyUnreadable why => msg = "Unexpected error: " +:+ why
        end).
Proof.
  intros N. unfold test_cloudflare_api_connectivity, probe_try.
  rewrite N. cbn [fst snd handle_request_errors].
  destruct (Z.eqb_spec code 403) as [->|Hc].
  - eexists. split; [reflexivity|]. split; [reflexivity | congruence].
  - destruct body as [text|why].
    + eexists. split; [reflexivity|]. split; [congruence|].
      intros _. exists (take 200 text). split; [reflexivity|].
      split; [apply take_length|].
      split; [apply take_prefix | apply take_all].
    + eexists. split; [reflexivity|]. split; [congruence|].
      intros _. reflexivity.
Qed.

Lemma http_failure_witness :
  test_cloudflare_api_connectivity plain_repr
    (always_raising
       (HTTPError 500 "Internal Server Error"
          (BodyUnreadable "'utf-8' codec can't decode byte 0xff in position 0: invalid start byte")))
    "token" "example.com"
  = ([UrlOpen list_zones_url],
     probe_failure
       "Unexpected error: 'utf-8' codec can't decode byte 0xff in position 0: invalid start byte").
Proof.
  destruct (http_failure_reported plain_repr
              (always_raising
                 (HTTPError 500 "Internal Server Error"
                    (BodyUnreadable "'utf-8' codec can't decode byte 0xff in position 0: invalid start byte")))
              "token" "example.com" 500 "Internal Server Error"
              (BodyUnreadable "'utf-8' codec can't decode byte 0xff in position 0: invalid start byte")
              eq_refl) as (msg & E & _ & H).
  rewrite E, H; [reflexivity | discriminate].
Defined.

Lemma error_msgs_objects (repr_other : json -> string) (errs : list json) :
  forallb is_object errs = true ->
  error_msgs repr_other errs = Ok (map (error_text repr_other) errs).
Proof.
  induction errs as [|e errs IH]; [reflexivity|].
  cbn [forallb]. intros H. apply andb_true_iff in H as [He Hes].
  destruct e as [| | | | |l|items]; try discriminate.
  cbn [error_msgs py_get mbind result_bind]. rewrite (IH Hes). reflexivity.
Qed.

(** A response that does not report success ends the probe after the one
    request, with every entry of its [errors] list in the error text, in
    order, as [code: message] joined by commas; a missing code or message
    reads [unknown] or [unknown error], a missing list gives no entry. *)
Theorem protocol_failure_reported (repr_other : json -> string)
    (network : string -> string -> result json)
    (api_token domain : string) (items : list (string * json))
    (errs : list json) :
  network list_zones_url api_token = Ok (JObj items) ->
  from_option truthy false (dict_lookup items "success") = false ->
  from_option id (JArr []) (dict_lookup items "errors") = JArr errs ->
  forallb is_object errs = true ->
  test_cloudflare_api_connectivity repr_other network api_token domain
  = ([UrlOpen list_zones_url],
     probe_failure ("API call failed: "
                    +:+ join ", " (map (error_text repr_other) errs))).
Proof.
  intros N Hs He Ho. unfold test_cloudflare_api_connectivity, probe_try.
  rewrite N. unfold select_zone. cbn [py_get mbind result_bind].
  assert (T : truthy (from_option id JNull (dict_lookup items "success"))
              = false).
  { destruct (dict_lookup items "success"); [exact Hs | reflexivity]. }
  rewrite T. cbn [negb]. rewrite He. cbn [py_iter mbind result_bind].
  rewrite (error_msgs_objects _ _ Ho). reflexivity.
Qed.

Lemma protocol_failure_witness :
  test_cloudflare_api_connectivity plain_repr
    (fun _ _ => Ok (JObj [("success", JBool false);
                          ("errors", JArr [JObj [("code", JInt 9109);
                                                 ("message", JStr "Invalid access token")];
                                           JObj [("code", JInt 10000)]])]))
    "token" "example.com"
  = ([UrlOpen list_zones_url],
     probe_failure
       "API call failed: 9109: Invalid access token, 10000: unknown error").
Proof.
  exact (protocol_failure_reported plain_repr
           (fun _ _ => Ok (JObj [("success", JBool false);
                                 ("errors", JArr [JObj [("code", JInt 9109);
                                                        ("message", JStr "Invalid access token")];
                                                  JObj [("code", JInt 10000)]])]))
           "token" "example.com" _ _ eq_refl eq_refl eq_refl eq_refl).
Defined.

(** With a network that answers two tokens alike, the probe behaves
    alike for them. *)
Lemma probe_same_for_tokens (repr_other : json -> string)
    (network : string -> string -> result json)
    (token token' domain : string) :
  (forall url, network url token = network url token') ->
  test_cloudflare_api_connectivity repr_other network token domain
  = test_cloudflare_api_connectivity repr_other network token' domain.
Proof.
  intros H. unfold test_cloudflare_api_connectivity, probe_try.
  rewrite (H list_zones_url).
  destruct (network list_zones_url token') as [data|e]; [|reflexivity].
  destruct (select_zone repr_other data domain (base_domain_of domain))
    as [[failure|zone]|e]; try reflexivity.
  unfold check_dns_records.
  destruct (py_get zone "id" JNull) as [zid|e]; [|reflexivity].
  destruct (py_get zone "name" JNull) as [zname|e]; [|reflexivity].
  rewrite (H (dns_records_url repr_other zid)). reflexivity.
Qed.

(** *** The base-domain candidate *)





(* ===================================================================== *)
(** ** Further properties of [main] *)
(* ===================================================================== *)

Lemma actions_app (t t' : list event) :
  actions (t ++ t') = actions t ++ actions t'.
Proof. unfold actions. apply List.filter_app. Qed.

Lemma actions_quiet (t : list event) :
  forallb quiet t = true -> actions t = [].
Proof.
  induction t as [|e t IH]; [reflexivity|].
  cbn [forallb]. intros H. apply andb_true_iff in H as [He Ht].
  unfold actions in *. cbn [List.filter]. rewrite He. simpl. apply IH, Ht.
Qed.

Lemma actions_after_config (w : world) (t : list event) :
  actions (load_env_file_output (env_file_found w) ++ t) = actions t.
Proof.
  rewrite actions_app, (actions_quiet _ (quiet_load_env_file_output _)).
  reflexivity.
Qed.

(** How [main] ends once DNS-01 with Cloudflare applies and the domain is
    configured. *)
Lemma main_applicable (w : world) :
  config_value w "LE_CHALLENGE" = "dns" ->
  config_value w "LE_DNS_PROVIDER" = "cloudflare" ->
  config_value w "DOMAIN" <> "" ->
  config_value w "DOMAIN" <> "paste-domain-here" ->
  main w
  = (load_env_file_output (env_file_found w)
       ++ [Log INFO "DNS-01 challenge with Cloudflare provider detected"]
       ++ (main_certificates w (load_env_file (env_file_found w))
             (config_value w "DOMAIN") (config_value w "SUBDOMAIN")).1,
     (main_certificates w (load_env_file (env_file_found w))
        (config_value w "DOMAIN") (config_value w "SUBDOMAIN")).2).
Proof.
  unfold config_value. intros Hc Hp Hd Hd'. unfold main.
  rewrite Hc, Hp. apply is_empty_false in Hd. rewrite Hd.
  apply eqb_false_of_neq in Hd'. rewrite Hd'. cbn [negb orb String.eqb].
  simpl.
  destruct (main_certificates w (load_env_file (env_file_found w))
              (get_env_value (environ w) "DOMAIN"
                 (load_env_file (env_file_found w)))
              (get_env_value (environ w) "SUBDOMAIN"
                 (load_env_file (env_file_found w)))) as [t o].
  cbn [fst snd]. rewrite <- app_assoc. reflexivity.
Qed.

(** The four ways [main] can go. *)
Lemma main_cases (w : world) :
  (exists t, main w = (t, Exit SkipNotDns) /\ forallb quiet t = true)
  \/ (exists t, main w = (t, Exit SkipNotCloudflare)
                /\ forallb quiet t = true)
  \/ (exists t, main w = (t, Exit FailConfig) /\ forallb quiet t = true
                /\ config_value w "LE_CHALLENGE" = "dns"
                /\ config_value w "LE_DNS_PROVIDER" = "cloudflare")
  \/ (config_value w "LE_CHALLENGE" = "dns"
      /\ config_value w "LE_DNS_PROVIDER" = "cloudflare"
      /\ config_value w "DOMAIN" <> ""
      /\ config_value w "DOMAIN" <> "paste-domain-here").
Proof.
  assert (Hq : forall l, forallb quiet
            (load_env_file_output (env_file_found w) ++ l) = forallb quiet l).
  { intros l. rewrite forallb_app, quiet_load_env_file_output. reflexivity. }
  unfold config_value, main.
  destruct (String.eqb_spec
              (get_env_value (environ w) "LE_CHALLENGE"
                 (load_env_file (env_file_found w))) "dns") as [Hc|Hc].
  - destruct (String.eqb_spec
                (get_env_value (environ w) "LE_DNS_PROVIDER"
                   (load_env_file (env_file_found w))) "cloudflare")
      as [Hp|Hp].
    + cbn [negb].
      destruct (is_empty (get_env_value (environ w) "DOMAIN"
                  (load_env_file (env_file_found w)))) eqn:E.
      * right; right; left. eexists. split; [reflexivity|].
        rewrite <- app_assoc, Hq. repeat split; assumption.
      * destruct (String.eqb_spec
                    (get_env_value (environ w) "DOMAIN"
                       (load_env_file (env_file_found w)))
                    "paste-domain-here") as [Hd|Hd].
        -- right; right; left. eexists. split; [reflexivity|].
           rewrite <- app_assoc, Hq. repeat split; assumption.
        -- right; right; right. apply is_empty_false in E.
           repeat split; assumption.
    + right; left. eexists. split; [reflexivity|]. rewrite Hq. reflexivity.
  - left. eexists. split; [reflexivity|]. rewrite Hq. reflexivity.
Qed.

Lemma probe_success_requests (repr_other : json -> string)
    (network : string -> string -> result json)
    (api_token domain : string) (err : option string) (zi : zone_info) :
  (test_cloudflare_api_connectivity repr_other network api_token domain).2
    = (true, err, Some zi) ->
  (test_cloudflare_api_connectivity repr_other network api_token domain).1
  = [UrlOpen list_zones_url; UrlOpen (dns_records_url repr_other (zi_id zi))].
Proof.
  unfold test_cloudflare_api_connectivity.
  destruct (probe_try_cases repr_other network api_token domain)
    as [(r & -> & Hr) | (data & zone & name & _ & _ & _ & _ & ->)].
  - cbn [snd]. intros E. apply handled_success in E. subst r.
    destruct (Hr _ eq_refl) as (msg & [=]).
  - pose proof (check_dns_records_cases repr_other network api_token zone)
      as H.
    destruct (check_dns_records repr_other network api_token zone)
      as [evs r]. destruct H as [Hev H]. cbn [fst snd].
    intros E. apply handled_success in E. subst r.
    destruct (H _ eq_refl) as [_ H'].
    destruct (H' _ _ eq_refl) as [_ Hid].
    destruct Hev as [[_ (e & [=])] | (zid & Ez & ->)].
    rewrite Ez in Hid. injection Hid as <-. reflexivity.
Qed.

Lemma actions_requests (repr_other : json -> string)
    (network : string -> string -> result json) (api_token domain : string) :
  actions
    (test_cloudflare_api_connectivity repr_other network api_token domain).1
  = (test_cloudflare_api_connectivity repr_other network api_token domain).1.
Proof.
  destruct (probe_request_shape repr_other network api_token domain)
    as [[-> | (zid & -> & _)] _]; reflexivity.
Qed.

(** How the credential step and the probe end [main]. *)
Lemma main_credentials_cases (w : world) (env_vars : gmap string string)
    (domain : string) :
  match validate_cloudflare_credentials (environ w) env_vars with
  | (false, _, _) =>
      exists t, main_credentials w env_vars domain
                = (t, Exit FailNoCredential)
                /\ actions t = [Called CredCheck]
  | (true, api_token, _) =>
      exists t,
        actions t
        = [Called CredCheck; Called ApiProbe]
            ++ (test_cloudflare_api_connectivity (py_repr w) (net w)
                  (fmt_opt api_token) domain).1
        /\ ((main_credentials w env_vars domain = (t, Exit FailApi)
             /\ exists err,
                  (test_cloudflare_api_connectivity (py_repr w) (net w)
                     (fmt_opt api_token) domain).2 = (false, err, None))
            \/ (main_credentials w env_vars domain = (t, Exit PassApi)
                /\ exists err zi,
                     (test_cloudflare_api_connectivity (py_repr w) (net w)
                        (fmt_opt api_token) domain).2
                     = (true, err, Some zi)))
  end.
Proof.
  unfold main_credentials.
  destruct (validate_cloudflare_credentials (environ w) env_vars)
    as [[ok api_token] cred_error].
  destruct ok; [|eexists; split; reflexivity].
  pose proof (probe_coherent_result (py_repr w) (net w) (fmt_opt api_token)
                domain) as Hc.
  pose proof (actions_requests (py_repr w) (net w) (fmt_opt api_token)
                domain) as Ha.
  destruct (test_cloudflare_api_connectivity (py_repr w) (net w)
              (fmt_opt api_token) domain) as [reqs [[success err] zone]].
  cbn [fst snd] in *.
  destruct success, err as [msg|], zone as [zi|]; try discriminate;
    cbn [negb]; eexists.
  - split; [|right; split; [reflexivity | eauto]].
    rewrite !actions_app, Ha.
    cbv [actions List.filter quiet negb]. apply app_nil_r.
  - split; [|left; split; [reflexivity | eauto]].
    rewrite !actions_app, Ha.
    cbv [actions List.filter quiet negb api_failure_lines]. apply app_nil_r.
Qed.

(** How the certificate check steers [main]. *)
Lemma main_certificates_cases (w : world) (env_vars : gmap string string)
    (domain subdomain : string) :
  match check_certificates_exist_and_valid (store_found w) (acme_storage w)
          (requested_domains domain subdomain) with
  | Raise e =>
      exists t, main_certificates w env_vars domain subdomain
                = (t, Uncaught e)
                /\ actions t = [Called CertCheck]
  | Ok (true, _) =>
      exists t, main_certificates w env_vars domain subdomain
                = (t, Exit PassCertsValid)
                /\ actions t = [Called CertCheck]
  | Ok (false, _) =>
      exists t, main_certificates w env_vars domain subdomain
                = (t ++ (main_credentials w env_vars domain).1,
                   (main_credentials w env_vars domain).2)
                /\ actions t = [Called CertCheck]
  end.
Proof.
  unfold main_certificates.
  destruct (check_certificates_exist_and_valid (store_found w)
              (acme_storage w) (requested_domains domain subdomain))
    as [[[|] status]|e].
  - eexists. split; reflexivity.
  - destruct (main_credentials w env_vars domain) as [t' o]. cbn [fst snd].
    eexists. split; [rewrite app_assoc; reflexivity | reflexivity].
  - eexists. split; reflexivity.
Qed.


(** With DNS-01 and Cloudflare selected, an empty or placeholder [DOMAIN]
    ends the run with exit code 1 before any check: the store is not
    read, no credential is looked up and no request is sent. *)
Theorem main_config_error (w : world) :
  config_value w "LE_CHALLENGE" = "dns" ->
  config_value w "LE_DNS_PROVIDER" = "cloudflare" ->
  config_value w "DOMAIN" = "" \/ config_value w "DOMAIN" = "paste-domain-here" ->
  (main w).2 = Exit FailConfig
  /\ exit_code (main w).2 = 1%Z
  /\ forallb quiet (main w).1 = true.
Proof.
  unfold config_value. intros Hc Hp Hd.
  assert (E : main w =
    ((load_env_file_output (env_file_found w)
        ++ [Log INFO "DNS-01 challenge with Cloudflare provider detected"])
       ++ [Log ERROR "DOMAIN is not configured properly in .env";
           Log INFO "Please set DOMAIN to your actual domain name"],
     Exit FailConfig)).
  { unfold main. rewrite Hc, Hp. cbn [String.eqb negb].
    destruct Hd as [-> | ->]; reflexivity. }
  rewrite E. cbn [fst snd]. repeat split.
  rewrite !forallb_app, quiet_load_env_file_output. reflexivity.
Qed.

Lemma main_config_error_witness :
  (main world_placeholder).2 = Exit FailConfig
  /\ exit_code (main world_placeholder).2 = 1%Z
  /\ forallb quiet (main world_placeholder).1 = true.
Proof.
  apply (main_config_error world_placeholder).
  - vm_compute. reflexivity.
  - vm_compute. reflexivity.
  - right. vm_compute. reflexivity.
Defined.

(** When the certificates are not all found and both token variables are
    empty or absent, the run ends with exit code 1 after the credential
    check: the probe is not entered and no request is sent. *)
Theorem main_missing_credential (w : world) (status : string) :
  config_value w "LE_CHALLENGE" = "dns" ->
  config_value w "LE_DNS_PROVIDER" = "cloudflare" ->
  config_value w "DOMAIN" <> "" ->
  config_value w "DOMAIN" <> "paste-domain-here" ->
  check_certificates_exist_and_valid (store_found w) (acme_storage w)
    (configured_domains w) = Ok (false, status) ->
  config_value w "CF_DNS_API_TOKEN" = "" ->
  config_value w "CF_API_TOKEN" = "" ->
  (main w).2 = Exit FailNoCredential
  /\ exit_code (main w).2 = 1%Z
  /\ actions (main w).1 = [Called CertCheck; Called CredCheck].
Proof.
  intros Hc Hp Hd Hd' Hchk Ht1 Ht2.
  rewrite (main_applicable w Hc Hp Hd Hd'). cbn [fst snd].
  pose proof (main_certificates_cases w (load_env_file (env_file_found w))
                (config_value w "DOMAIN") (config_value w "SUBDOMAIN")) as H.
  unfold configured_domains in Hchk. rewrite Hchk in H.
  destruct H as (t & -> & Ht). cbn [fst snd].
  pose proof (main_credentials_cases w (load_env_file (env_file_found w))
                (config_value w "DOMAIN")) as H.
  assert (V : validate_cloudflare_credentials (environ w)
                (load_env_file (env_file_found w))
              = (false, None, Some (strip credentials_error_raw))).
  { unfold validate_cloudflare_credentials.
    unfold config_value in Ht1, Ht2. rewrite Ht1, Ht2. reflexivity. }
  rewrite V in H. destruct H as (t' & -> & Ht'). cbn [fst snd].
  repeat split.
  rewrite actions_after_config, !actions_app, Ht, Ht'. reflexivity.
Qed.

Lemma main_missing_credential_witness :
  (main world_no_credentials).2 = Exit FailNoCredential
  /\ exit_code (main world_no_credentials).2 = 1%Z
  /\ actions (main world_no_credentials).1
     = [Called CertCheck; Called CredCheck].
Proof.
  apply (main_missing_credential world_no_credentials
           "ACME storage file not found at /data/acme-dns.json").
  - vm_compute. reflexivity.
  - vm_compute. reflexivity.
  - vm_compute. discriminate.
  - vm_compute. discriminate.
  - vm_compute. reflexivity.
  - vm_compute. reflexivity.
  - vm_compute. reflexivity.
Defined.

(** Whatever the network returns or raises, the probe answers with a
    coherent triple (success with zone information and no error text, or
    failure with an error text and no zone information); it sends one
    request, to the list-zones URL, or two, the second to the DNS records
    of one zone and never the same URL again; every request goes to
    Cloudflare's zones endpoint; and a success is always backed by both
    requests. *)
Theorem probe_contract (repr_other : json -> string)
    (network : string -> string -> result json) (api_token domain : string) :
  let p :=
    test_cloudflare_api_connectivity repr_other network api_token domain in
  coherent p.2 = true
  /\ (p.1 = [UrlOpen list_zones_url]
      \/ exists zid,
           p.1 = [UrlOpen list_zones_url;
                  UrlOpen (dns_records_url repr_other zid)]
           /\ dns_records_url repr_other zid <> list_zones_url)
  /\ Forall (fun e => exists url,
                 e = UrlOpen url /\ startswith url zones_endpoint = true) p.1
  /\ (forall err zi, p.2 = (true, err, Some zi) ->
        p.1 = [UrlOpen list_zones_url;
               UrlOpen (dns_records_url repr_other (zi_id zi))]).
Proof.
  cbv zeta. split; [apply probe_coherent_result|].
  destruct (probe_request_shape repr_other network api_token domain)
    as [H1 H2].
  split; [exact H1|]. split; [exact H2|].
  intros err zi. apply probe_success_requests.
Qed.


Lemma validate_cases (environ env_vars : gmap string string) :
  (exists token,
     validate_cloudflare_credentials environ env_vars
       = (true, Some token, None)
     /\ token <> "")
  \/ exists msg,
       validate_cloudflare_credentials environ env_vars
         = (false, None, Some msg).
Proof.
  unfold validate_cloudflare_credentials.
  destruct (is_empty (get_env_value environ "CF_DNS_API_TOKEN" env_vars))
    eqn:E1.
  - destruct (is_empty (get_env_value environ "CF_API_TOKEN" env_vars))
      eqn:E2.
    + right. eauto.
    + left. eexists. split; [reflexivity|]. apply is_empty_false, E2.
  - left. rewrite E1. eexists. split; [reflexivity|].
    apply is_empty_false, E1.
Qed.

(** A run that exits with code 0 either skipped, or found a certificate
    for every configured domain, or held a non-empty token with which the
    probe succeeded for the primary domain: success is never reported
    without one of the two checks behind it. *)
Theorem main_pass_sound (w : world) :
  exit_code (main w).2 = 0%Z ->
  is_skip (main w).2 = true
  \/ (exists status,
        check_certificates_exist_and_valid (store_found w) (acme_storage w)
          (configured_domains w) = Ok (true, status))
  \/ (exists token err zi,
        token <> ""
        /\ validate_cloudflare_credentials (environ w)
             (load_env_file (env_file_found w)) = (true, Some token, None)
        /\ (test_cloudflare_api_connectivity (py_repr w) (net w) token
              (config_value w "DOMAIN")).2 = (true, err, Some zi)).
Proof.
  unfold configured_domains.
  pose proof (main_certificates_cases w (load_env_file (env_file_found w))
                (config_value w "DOMAIN") (config_value w "SUBDOMAIN")) as H.
  pose proof (main_credentials_cases w (load_env_file (env_file_found w))
                (config_value w "DOMAIN")) as H'.
  destruct (main_cases w)
    as [(t & -> & _) | [(t & -> & _) | [(t & -> & _)
        | (Hc & Hp & Hd & Hd')]]]; try (left; reflexivity);
    try discriminate.
  rewrite (main_applicable w Hc Hp Hd Hd'). cbn [snd].
  destruct (check_certificates_exist_and_valid (store_found w)
              (acme_storage w) _) as [[[|] status]|e'].
  - intros _. right; left. eauto.
  - destruct H as (t & -> & _). cbn [snd].
    destruct (validate_cases (environ w) (load_env_file (env_file_found w)))
      as [(token & V & Hne) | (msg & V)]; rewrite V in H'.
    + destruct H' as (t' & _ & [[-> _] | [-> (err & zi & Hs)]]);
        [discriminate|].
      intros _. right; right. exists token, err, zi. repeat split; assumption.
    + destruct H' as (t' & -> & _). discriminate.
  - destruct H as (t & -> & _). discriminate.
Qed.

Lemma main_pass_sound_witness :
  is_skip (main world_certs_present).2 = true
  \/ (exists status,
        check_certificates_exist_and_valid (store_found world_certs_present)
          (acme_storage world_certs_present)
          (configured_domains world_certs_present) = Ok (true, status))
  \/ (exists token err zi,
        token <> ""
        /\ validate_cloudflare_credentials (environ world_certs_present)
             (load_env_file (env_file_found world_certs_present))
           = (true, Some token, None)
        /\ (test_cloudflare_api_connectivity (py_repr world_certs_present)
              (net world_certs_present) token
              (config_value world_certs_present "DOMAIN")).2
           = (true, err, Some zi)).
Proof.
  apply (main_pass_sound world_certs_present). vm_compute. reflexivity.
Defined.

Lemma main_credentials_same_for_tokens (w w' : world)
    (env_vars env_vars' : gmap string string) (domain token token' : string) :
  py_repr w' = py_repr w ->
  net w' = net w ->
  validate_cloudflare_credentials (environ w) env_vars
    = (true, Some token, None) ->
  validate_cloudflare_credentials (environ w') env_vars'
    = (true, Some token', None) ->
  (forall url, net w url token = net w url token') ->
  main_credentials w' env_vars' domain = main_credentials w env_vars domain.
Proof.
  intros Hr Hn V V' H. unfold main_credentials.
  rewrite V, V', Hr, Hn. cbn [fmt_opt from_option id].
  rewrite (probe_same_for_tokens (py_repr w) (net w) token token' domain H).
  reflexivity.
Qed.

(** [main] and the probe hand the token to the requests and use it
    nowhere else: no line they print, no URL they request and no exit code
    depends on the token except through what a request returns or raises.
    Two runs that differ only in where the token comes from and what it
    is, and whose requests return or raise the same for both tokens, print
    the same lines, send the same requests and end the same way.  (What a
    request raises is printed, so a token quoted in an exception's text
    does reach the output.) *)
Theorem main_token_only_through_requests (w : world) (environ' : gmap string string)
    (f' : env_file) (token token' : string) :
  (forall key, In key main_keys ->
     config_value (with_config w environ' f') key = config_value w key) ->
  load_env_file_output f' = load_env_file_output (env_file_found w) ->
  validate_cloudflare_credentials (environ w)
    (load_env_file (env_file_found w)) = (true, Some token, None) ->
  validate_cloudflare_credentials environ' (load_env_file f')
    = (true, Some token', None) ->
  (forall url, net w url token = net w url token') ->
  main (with_config w environ' f') = main w.
Proof.
  intros Hk Ho V V' Hn.
  assert (E1 := Hk "LE_CHALLENGE" ltac:(simpl; tauto)).
  assert (E2 := Hk "LE_DNS_PROVIDER" ltac:(simpl; tauto)).
  assert (E3 := Hk "DOMAIN" ltac:(simpl; tauto)).
  assert (E4 := Hk "SUBDOMAIN" ltac:(simpl; tauto)).
  unfold config_value in E1, E2, E3, E4.
  cbn [with_config environ env_file_found] in E1, E2, E3, E4.
  unfold main. cbn [with_config environ env_file_found].
  rewrite E1, E2, E3, E4, Ho.
  assert (Hc : forall d s,
            main_certificates (with_config w environ' f')
              (load_env_file f') d s
            = main_certificates w (load_env_file (env_file_found w)) d s).
  { intros d s. unfold main_certificates.
    cbn [with_config store_found acme_storage].
    rewrite (main_credentials_same_for_tokens w (with_config w environ' f')
               (load_env_file (env_file_found w)) (load_env_file f') d
               token token' eq_refl eq_refl V V' Hn).
    reflexivity. }
  rewrite Hc. reflexivity.
Qed.

Lemma main_token_only_through_requests_witness :
  main (with_config
          (World ∅ (EnvOpened (dns_cloudflare
                                 ++ ["DOMAIN=example.com"; "CF_API_TOKEN=first"])
                              None)
                 "/data/acme-dns.json" StoreMissing plain_repr
                 (serving [zone_record "z1" "example.com"]))
          {[ "CF_DNS_API_TOKEN" := "second" ]}
          (EnvOpened (dns_cloudflare ++ ["DOMAIN=example.com"]) None))
  = main (World ∅ (EnvOpened (dns_cloudflare
                                ++ ["DOMAIN=example.com"; "CF_API_TOKEN=first"])
                             None)
                "/data/acme-dns.json" StoreMissing plain_repr
                (serving [zone_record "z1" "example.com"])).
Proof.
  apply (main_token_only_through_requests _ _ _ "first" "second").
  - intros key [<- | [<- | [<- | [<- | []]]]]; vm_compute; reflexivity.
  - vm_compute. reflexivity.
  - vm_compute. reflexivity.
  - vm_compute. reflexivity.
  - intros url. reflexivity.
Defined.

(** An exception of the first request that is neither an HTTP error nor
    a [URLError] ends the probe after that one request with
    "Request failed: " followed by the exception's text, whatever that
    text holds.  [urlopen] refuses a header value that contains a line
    feed with a [ValueError] whose text quotes the header, so a token
    with a line feed is printed in the probe's error. *)
Theorem request_exception_text_printed (repr_other : json -> string)
    (network : string -> string -> result json)
    (api_token domain : string) (e : exn) :
  network list_zones_url api_token = Raise e ->
  (forall code reason body, e <> HTTPError code reason body) ->
  (forall reason, e <> URLError reason) ->
  test_cloudflare_api_connectivity repr_other network api_token domain
  = ([UrlOpen list_zones_url],
     probe_failure ("Request failed: " +:+ exn_str e)).
Proof.
  intros H Hh Hu. unfold test_cloudflare_api_connectivity, probe_try.
  rewrite H.
  destruct e as [m|m|code reason body|reason|m]; try reflexivity.
  - exfalso. exact (Hh code reason body eq_refl).
  - exfalso. exact (Hu reason eq_refl).
Qed.

Lemma request_exception_text_witness :
  test_cloudflare_api_connectivity plain_repr
    (fun _ token =>
       Raise (OtherException ("Invalid header value b'Bearer " +:+ token
                              +:+ "'")))
    "secret" "example.com"
  = ([UrlOpen list_zones_url],
     probe_failure "Request failed: Invalid header value b'Bearer secret'").
Proof.
  apply (request_exception_text_printed plain_repr
           (fun _ token =>
              Raise (OtherException ("Invalid header value b'Bearer "
                                     +:+ token +:+ "'")))
           "secret" "example.com"
           (OtherException "Invalid header value b'Bearer secret'")).
  - reflexivity.
  - discriminate.
  - discriminate.
Defined.

(* ===================================================================== *)
(** ** Further properties of the configuration and credential checks *)
(* ===================================================================== *)

(** A variable set in the process environment hides the configuration
    file's value even when it is set to the empty string: with an empty
    [CF_DNS_API_TOKEN] in the environment, a token given under that name
    in the file is never used, and the check fails unless [CF_API_TOKEN]
    has a value. *)
Theorem empty_environment_token_masks_file
    (environ env_vars : gmap string string) (in_file : string) :
  environ !! "CF_DNS_API_TOKEN" = Some "" ->
  validate_cloudflare_credentials environ
    (<["CF_DNS_API_TOKEN" := in_file]> env_vars)
  = validate_cloudflare_credentials environ env_vars
  /\ (get_env_value environ "CF_API_TOKEN" env_vars = "" ->
      exists msg,
        validate_cloudflare_credentials environ
          (<["CF_DNS_API_TOKEN" := in_file]> env_vars)
        = (false, None, Some msg)).
Proof.
  intros H.
  assert (E : forall ev, get_env_value environ "CF_DNS_API_TOKEN" ev = "").
  { intros ev. unfold get_env_value. rewrite H. reflexivity. }
  assert (L : get_env_value environ "CF_API_TOKEN"
                (<["CF_DNS_API_TOKEN" := in_file]> env_vars)
              = get_env_value environ "CF_API_TOKEN" env_vars).
  { unfold get_env_value. rewrite lookup_insert_ne by discriminate.
    reflexivity. }
  unfold validate_cloudflare_credentials. rewrite !E, L. cbn [is_empty].
  split; [reflexivity|].
  intros ->. eexists. reflexivity.
Qed.

Lemma empty_environment_token_witness :
  validate_cloudflare_credentials {[ "CF_DNS_API_TOKEN" := "" ]}
    (<["CF_DNS_API_TOKEN" := "token-in-file"]> ∅)
  = validate_cloudflare_credentials {[ "CF_DNS_API_TOKEN" := "" ]} ∅
  /\ (get_env_value {[ "CF_DNS_API_TOKEN" := "" ]} "CF_API_TOKEN" ∅ = "" ->
      exists msg,
        validate_cloudflare_credentials {[ "CF_DNS_API_TOKEN" := "" ]}
          (<["CF_DNS_API_TOKEN" := "token-in-file"]> ∅)
        = (false, None, Some msg)).
Proof.
  apply (empty_environment_token_masks_file
           {[ "CF_DNS_API_TOKEN" := "" ]} ∅ "token-in-file").
  vm_compute. reflexivity.
Defined.

(* ===================================================================== *)
(** ** Further properties of the certificate check *)
(* ===================================================================== *)

(** What the check returns on a well-formed store. *)
Lemma check_well_formed (acme_data : json) (certs : list json)
    (acme_storage_path : string) (domains : list string) :
  store_records acme_data = Some certs ->
  check_certificates_exist_and_valid (StoreParsed acme_data)
    acme_storage_path domains
  = Ok (forallb (satisfied certs) domains,
        join "; " (map (domain_message certs) domains)).
Proof.
  intros H.
  destruct (store_records_shape _ _ H) as (items & dns_items & -> & E1 & E2
                                           & Hne & Hok).
  unfold check_certificates_exist_and_valid.
  rewrite (dict_lookup_truthy _ _ _ E1). simpl.
  rewrite E1. simpl. rewrite E2. simpl.
  destruct certs as [|c cs]; [congruence|]. simpl negb. cbv iota.
  rewrite (check_domains_records _ _ _ _ Hok). reflexivity.
Qed.

Lemma satisfied_same_records (certs certs' : list json) (domain : string) :
  (forall cert, In cert certs <-> In cert certs') ->
  satisfied certs domain = satisfied certs' domain.
Proof.
  intros H. unfold satisfied.
  destruct (existsb _ certs') eqn:E'.
  - apply existsb_exists in E' as (c & Hin & Hc).
    apply existsb_exists. exists c. split; [apply H, Hin | exact Hc].
  - destruct (existsb _ certs) eqn:E; [|reflexivity].
    apply existsb_exists in E as (c & Hin & Hc).
    rewrite <- E'. symmetry. apply existsb_exists.
    exists c. split; [apply H, Hin | exact Hc].
Qed.

(** The order of the records in the store and their repetition do not
    matter: two well-formed stores holding the same records give the same
    verdict and the same status for every request. *)
Theorem check_ignores_record_order (acme_data acme_data' : json)
    (certs certs' : list json) (acme_storage_path : string)
    (domains : list string) :
  store_records acme_data = Some certs ->
  store_records acme_data' = Some certs' ->
  (forall cert, In cert certs <-> In cert certs') ->
  check_certificates_exist_and_valid (StoreParsed acme_data)
    acme_storage_path domains
  = check_certificates_exist_and_valid (StoreParsed acme_data')
      acme_storage_path domains.
Proof.
  intros H H' Hsame.
  rewrite (check_well_formed _ _ _ _ H), (check_well_formed _ _ _ _ H').
  assert (Hs : forall d, satisfied certs d = satisfied certs' d).
  { intros d. apply satisfied_same_records, Hsame. }
  f_equal. f_equal.
  - induction domains as [|d ds IH]; [reflexivity|].
    cbn [forallb]. rewrite Hs, IH. reflexivity.
  - f_equal. apply map_ext. intros d. unfold domain_message.
    rewrite Hs. reflexivity.
Qed.

Lemma check_ignores_record_order_witness :
  check_certificates_exist_and_valid
    (StoreParsed (store_with [cert_record "example.com";
                              cert_record "*.example.org"]))
    "/data/acme-dns.json" ["example.org"; "example.com"]
  = check_certificates_exist_and_valid
      (StoreParsed (store_with [cert_record "*.example.org";
                                cert_record "example.com";
                                cert_record "*.example.org"]))
      "/data/acme-dns.json" ["example.org"; "example.com"].
Proof.
  apply (check_ignores_record_order _ _
           [cert_record "example.com"; cert_record "*.example.org"]
           [cert_record "*.example.org"; cert_record "example.com";
            cert_record "*.example.org"]).
  - reflexivity.
  - reflexivity.
  - intros cert. simpl. tauto.
Defined.






(* ===================================================================== *)
(** ** Further properties of [load_env_file] *)
(* ===================================================================== *)













(* ===================================================================== *)
(** ** Properties of [check_db_connection.py] *)
(* ===================================================================== *)




(* ===================================================================== *)
(** ** The permission request *)
(* ===================================================================== *)

(** An HTTP error on the second request meets the inner handler, not the
    outer one.  Status 403 gives the message that names the selected zone,
    without reading the body.  For any other status the body is read: when
    that succeeds the message is the one for the DNS-permission check,
    with at most 200 characters of the body; when reading or decoding the
    body raises, that exception leaves the inner handler and is answered
    as "Request failed" with its text. *)
Theorem dns_permission_failure_reported (repr_other : json -> string)
    (network : string -> string -> result json)
    (api_token domain : string) (data zone : json)
    (code : Z) (reason : string) (body : http_body) :
  network list_zones_url api_token = Ok data ->
  select_zone repr_other data domain (base_domain_of domain)
    = Ok (inr zone) ->
  network (dns_records_url repr_other (zone_id zone)) api_token
    = Raise (HTTPError code reason body) ->
  exists msg,
    test_cloudflare_api_connectivity repr_other network api_token domain
    = ([UrlOpen list_zones_url;
        UrlOpen (dns_records_url repr_other (zone_id zone))],
       probe_failure msg)
    /\ (code = 403%Z ->
        msg = "API token does not have DNS read permission for zone '"
              +:+ fmt repr_other (reported_name zone)
              +:+ "'. Ensure token has 'Zone > DNS > Edit' permission.")
    /\ (code <> 403%Z ->
        match body with
        | BodyText text =>
            exists shown,
              msg = "HTTP " +:+ str_of_Z code
                    +:+ " when checking DNS permissions: " +:+ reason
                    +:+ ". " +:+ shown
              /\ (String.length shown <= 200)%nat
              /\ startswith text shown = true
              /\ ((String.length text <= 200)%nat -> shown = text)
        | BodyUnreadable why => msg = "Request failed: " +:+ why
        end).
Proof.
  intros N S D.
  pose proof (select_zone_object _ _ _ _ _ S) as Hobj.
  unfold test_cloudflare_api_connectivity, probe_try.
  rewrite N, S. destruct zone as [| | | | |l|items]; try discriminate.
  unfold check_dns_records. cbn [py_get].
  change (from_option id JNull (dict_lookup items "id"))
    with (zone_id (JObj items)).
  change (from_option id JNull (dict_lookup items "name"))
    with (reported_name (JObj items)).
  rewrite D.
  destruct (Z.eqb_spec code 403) as [->|Hc].
  - eexists. split; [reflexivity|]. split; [reflexivity | congruence].
  - destruct body as [text|why].
    + eexists. split; [reflexivity|]. split; [congruence|].
      intros _. exists (take 200 text). split; [reflexivity|].
      split; [apply take_length|].
      split; [apply take_prefix | apply take_all].
    + eexists. split; [reflexivity|]. split; [congruence|].
      intros _. reflexivity.
Qed.

Lemma dns_permission_failure_witness :
  test_cloudflare_api_connectivity plain_repr
    (refusing_records [zone_record "z1" "example.com"]
       (HTTPError 403 "Forbidden" (BodyText "")))
    "token" "app.example.com"
  = ([UrlOpen list_zones_url;
      UrlOpen "https://api.cloudflare.com/client/v4/zones/z1/dns_records?per_page=1"],
     probe_failure
       "API token does not have DNS read permission for zone 'example.com'. Ensure token has 'Zone > DNS > Edit' permission.")
  /\ test_cloudflare_api_connectivity plain_repr
       (refusing_records [zone_record "z1" "example.com"]
          (HTTPError 502 "Bad Gateway" (BodyUnreadable "IncompleteRead(0 bytes read)")))
       "token" "app.example.com"
     = ([UrlOpen list_zones_url;
         UrlOpen "https://api.cloudflare.com/client/v4/zones/z1/dns_records?per_page=1"],
        probe_failure "Request failed: IncompleteRead(0 bytes read)").
Proof.
  split.
  - destruct (dns_permission_failure_reported plain_repr
                (refusing_records [zone_record "z1" "example.com"]
                   (HTTPError 403 "Forbidden" (BodyText "")))
                "token" "app.example.com"
                (zones_reply [zone_record "z1" "example.com"])
                (zone_record "z1" "example.com") 403 "Forbidden" (BodyText "")
                eq_refl eq_refl eq_refl) as (msg & E & H & _).
    rewrite E, H; reflexivity.
  - destruct (dns_permission_failure_reported plain_repr
                (refusing_records [zone_record "z1" "example.com"]
                   (HTTPError 502 "Bad Gateway"
                      (BodyUnreadable "IncompleteRead(0 bytes read)")))
                "token" "app.example.com"
                (zones_reply [zone_record "z1" "example.com"])
                (zone_record "z1" "example.com") 502 "Bad Gateway"
                (BodyUnreadable "IncompleteRead(0 bytes read)")
                eq_refl eq_refl eq_refl) as (msg & E & _ & H).
    rewrite E, H; [reflexivity | discriminate].
Defined.
